(** * SleepGuard: the fatigue-scoring and escalation engine

    A shallow embedding of [sleepguard_daemon.py] (class [SleepGuardDaemon]):
    the rolling keystroke window ([on_press], [get_keystroke_rate]), the
    three-factor score ([calculate_fatigue_score]), the notification
    hysteresis and the periodic save of [monitor_loop], the message tiers of
    [send_notification] and the shutdown path of [start].

    Conventions.
    - A naive [datetime] is the number of microseconds since the start of the
      proleptic calendar, so that [datetime - datetime] is a [timedelta] in
      microseconds and [.hour] is arithmetic on that number.  The
      [OverflowError] of an instant before [datetime.min] or after
      [datetime.max] is not represented.
    - Python's [int] is [Z].
    - Python's [float] is a rational obtained by a rounding function [rnd]:
      every float operation is the exact operation followed by [rnd].  [rnd]
      is a parameter of the model; the theorems that need something of it
      say so (monotone, exact on small integers), which round-to-nearest on
      binary64 satisfies, and so does exact arithmetic ([rnd] the identity).
      Overflow to infinity is not represented.
    - [datetime.now()], the outcome of the notification sink and the outcome
      of the file write are inputs of each loop iteration.
    - Console output, sink calls and file writes are collected as a list of
      events in program order. *)

From Stdlib Require Import ZArith QArith Qround Bool List Lia String DecimalString.
From Stdlib Require Import Sorting.Sorted Sorting.Permutation.
From Stdlib Require Import Lqa.
Import ListNotations.

Local Open Scope Z_scope.

(** ** Time *)

Definition datetime := Z.
Definition timedelta := Z.

(** [timedelta(seconds=s)] for an integer [s]. *)
Definition timedelta_seconds (s : Z) : timedelta := s * 1000000.

(** [t.hour] of a naive datetime. *)
Definition hour (t : datetime) : Z := (t / 3600000000) mod 24.

(** ** Configuration

    The configuration is the dict read from [config.json]; every use is
    [self.config.get(key, default)], so a field may be absent. *)

Record Config := {
  bedtime_hour : option Z;
  critical_hour : option Z;
  max_session_hours : option Q;
  notification_levels : option (list Z);
  keystroke_window_seconds : option Z;
  save_interval_seconds : option Z
}.

(** [d.get(key, default)]. *)
Definition get {A : Type} (field : option A) (default : A) : A :=
  match field with
  | Some v => v
  | None => default
  end.

(** The dict [load_config] writes when there is no file. *)
Definition default_config : Config := {|
  bedtime_hour := Some 23;
  critical_hour := Some 2;
  max_session_hours := Some (4 # 1)%Q;
  notification_levels := Some [30; 60; 90];
  keystroke_window_seconds := Some 60;
  save_interval_seconds := Some 60
|}.

(** The dict [load_config] returns when reading fails ([return {}]). *)
Definition empty_config : Config := {|
  bedtime_hour := None;
  critical_hour := None;
  max_session_hours := None;
  notification_levels := None;
  keystroke_window_seconds := None;
  save_interval_seconds := None
|}.

(** ** The daemon object *)

Record Daemon := {
  config : Config;
  session_start : datetime;
  keystroke_count : Z;
  last_keystroke_time : datetime;
  keystroke_history : list datetime;
  fatigue_score : Z;
  last_notification_level : Z;
  running : bool
}.

(** [__init__]: [now0] and [now1] are the two readings of the clock. *)
Definition init (cfg : Config) (now0 now1 : datetime) : Daemon := {|
  config := cfg;
  session_start := now0;
  keystroke_count := 0;
  last_keystroke_time := now1;
  keystroke_history := [];
  fatigue_score := 0;
  last_notification_level := 0;
  running := true
|}.

Definition set_fatigue_score (d : Daemon) (s : Z) : Daemon := {|
  config := config d;
  session_start := session_start d;
  keystroke_count := keystroke_count d;
  last_keystroke_time := last_keystroke_time d;
  keystroke_history := keystroke_history d;
  fatigue_score := s;
  last_notification_level := last_notification_level d;
  running := running d
|}.

Definition set_last_notification_level (d : Daemon) (l : Z) : Daemon := {|
  config := config d;
  session_start := session_start d;
  keystroke_count := keystroke_count d;
  last_keystroke_time := last_keystroke_time d;
  keystroke_history := keystroke_history d;
  fatigue_score := fatigue_score d;
  last_notification_level := l;
  running := running d
|}.

Definition set_running (d : Daemon) (b : bool) : Daemon := {|
  config := config d;
  session_start := session_start d;
  keystroke_count := keystroke_count d;
  last_keystroke_time := last_keystroke_time d;
  keystroke_history := keystroke_history d;
  fatigue_score := fatigue_score d;
  last_notification_level := last_notification_level d;
  running := b
|}.

(** ** The keystroke window *)

(** The list comprehension of [on_press]: [[t for t in h if t > cutoff_time]]. *)
Definition recent (cutoff_time : datetime) (h : list datetime) : list datetime :=
  filter (fun t => cutoff_time <? t) h.

(** [on_press] (the body under the lock); [current_time] is [datetime.now()]. *)
Definition on_press (d : Daemon) (current_time : datetime) : Daemon :=
  let cutoff_time :=
    current_time
    - timedelta_seconds (get (keystroke_window_seconds (config d)) 60) in
  {|
    config := config d;
    session_start := session_start d;
    keystroke_count := keystroke_count d + 1;
    last_keystroke_time := current_time;
    keystroke_history := recent cutoff_time (keystroke_history d ++ [current_time]);
    fatigue_score := fatigue_score d;
    last_notification_level := last_notification_level d;
    running := running d
  |}.

(** The window as the specification words it: the retained events whose
    timestamp is within [window_seconds] of [t], an event exactly
    [window_seconds] old included. *)
Definition within_window (window_seconds : Z) (t : datetime)
  (h : list datetime) : list datetime :=
  filter (fun x => t - x <=? timedelta_seconds window_seconds) h.

(** Key presses delivered one after the other. *)
Definition type_keys (d : Daemon) (times : list datetime) : Daemon :=
  fold_left on_press times d.

(** [len(...)] as a Python int. *)
Definition len {A : Type} (l : list A) : Z := Z.of_nat (List.length l).

(** [get_keystroke_rate]. *)
Definition get_keystroke_rate (d : Daemon) : Z :=
  if 0 <? len (keystroke_history d) then len (keystroke_history d) else 0.

(** ** The integer factors of the score *)

(** The late-night test of [calculate_fatigue_score]:
    [current_hour >= bedtime or current_hour < 6]. *)
Definition late_night (bedtime current_hour : Z) : bool :=
  (bedtime <=? current_hour) || (current_hour <? 6).

(** The inner [if] of factor 1. *)
Definition hours_past_bedtime (bedtime current_hour : Z) : Z :=
  if bedtime <=? current_hour then current_hour - bedtime
  else (24 - bedtime) + current_hour.

(** Factor 1: time of day. *)
Definition time_score (bedtime current_hour : Z) : Z :=
  if late_night bedtime current_hour
  then Z.min 30 (hours_past_bedtime bedtime current_hour * 7)
  else 0.

(** Factor 3: keystroke rate, from the retained history. *)
Definition keystroke_rate_score (history : list datetime) : Z :=
  if 0 <? len history then
    let current_rate := len history in
    if current_rate <? 30 then 30
    else if current_rate <? 60 then 20
    else if current_rate <? 90 then 10
    else 0
  else 25.

(** ** Python numbers

    [calculate_fatigue_score] mixes ints and floats: [time_score] and
    [keystroke_rate_score] are ints, [duration_score] is the int [0], the
    int [40] or a float.  An arithmetic operation on two ints is exact; one
    with a float operand is rounded. *)

Inductive number :=
| Int (z : Z)
| Float (q : Q).

Definition value (n : number) : Q :=
  match n with
  | Int z => inject_Z z
  | Float q => q
  end.

Definition Qltb (x y : Q) : bool := negb (Qle_bool y x).

(** [int(x)] of a float: truncation toward zero. *)
Definition trunc (x : Q) : Z := Z.quot (Qnum x) (Z.pos (Qden x)).

(** [int(n)]. *)
Definition int (n : number) : Z :=
  match n with
  | Int z => z
  | Float q => trunc q
  end.

(** [min(a, b)]: Python keeps [a] unless [b < a]. *)
Definition py_min (a b : number) : number :=
  if Qltb (value b) (value a) then b else a.

Section Floats.

(** Rounding of an exact result to a float. *)
Variable rnd : Q -> Q.

(** [a + b]. *)
Definition add (a b : number) : number :=
  match a, b with
  | Int x, Int y => Int (x + y)
  | _, _ => Float (rnd (value a + value b))
  end.

(** [x / y] with a float operand and [y] nonzero. *)
Definition fdiv (x y : Q) : Q := rnd (x / y).

(** [x * y] with a float operand. *)
Definition fmul (x y : Q) : Q := rnd (x * y).

(** [td.total_seconds()]: the true division of the microseconds by [10**6]. *)
Definition total_seconds (td : timedelta) : Q := rnd (inject_Z td / 1000000).

(** [x // y] on floats, [y] positive: the floor of the quotient.  Python
    returns it as a float, so this is the code's value for a nonnegative [x]
    below [2^53] and the integer divisors 3600 and 60 used here (the
    remainder of [fmod] is exact, and the difference and the quotient are
    then integers below [2^53]); a [datetime] difference in seconds is far
    below that.  Beyond it the float result need not be this integer. *)
Definition floordiv (x y : Q) : Q := inject_Z (Qfloor (x / y)).

(** [x % y] on floats: C's [fmod] is exact; Python then adds [y] when the
    signs differ, and that addition rounds. *)
Definition fmod (x y : Q) : Q :=
  let m := (x - y * inject_Z (trunc (x / y)))%Q in
  if negb (Qeq_bool m 0) && xorb (Qltb y 0) (Qltb m 0) then rnd (m + y) else m.

(** ** The score *)

(** Factor 2: session duration.  [None] is the [ZeroDivisionError] of
    [session_duration / max_session]. *)
Definition duration_score (session_duration max_session : Q) : option number :=
  if Qltb 1 session_duration then
    if Qeq_bool max_session 0 then None
    else Some (py_min (Int 40) (Float (fmul (fdiv session_duration max_session) 40)))
  else Some (Int 0).

(** [(current_time - self.session_start).total_seconds() / 3600]. *)
Definition session_duration (d : Daemon) (current_time : datetime) : Q :=
  fdiv (total_seconds (current_time - session_start d)) 3600.

(** [total_score] of [calculate_fatigue_score], before [int] and the clamp. *)
Definition total_score (ts : Z) (ds : number) (krs : Z) : number :=
  add (add (Int ts) ds) (Int krs).

(** [calculate_fatigue_score]; [current_time] is its [datetime.now()].
    [None] is an exception leaving the method. *)
Definition calculate_fatigue_score (d : Daemon) (current_time : datetime)
  : option Z :=
  let current_hour := hour current_time in
  let bedtime := get (bedtime_hour (config d)) 23 in
  let ts := time_score bedtime current_hour in
  let max_session := get (max_session_hours (config d)) (4 # 1)%Q in
  match duration_score (session_duration d current_time) max_session with
  | None => None
  | Some ds =>
      let krs := keystroke_rate_score (keystroke_history d) in
      Some (Z.min 100 (int (total_score ts ds krs)))
  end.

(** ** Notifications *)

Record Notification := {
  title : string;
  message : string;
  app_name : string;
  timeout : Z
}.

(** [str(n)] of an int. *)
Definition str (n : Z) : string := NilZero.string_of_int (Z.to_int n).

(** [get_session_duration]; [now] is its [datetime.now()]. *)
Definition get_session_duration (d : Daemon) (now : datetime) : string :=
  let duration := now - session_start d in
  let hours := trunc (floordiv (total_seconds duration) 3600) in
  let minutes := trunc (floordiv (fmod (total_seconds duration) 3600) 60) in
  (str hours ++ "h " ++ str minutes ++ "m")%string.

(** The three notifications of [send_notification]; the warning carries the
    formatted session duration. *)
Definition critical_alert : Notification := {|
  title := "🚨 SleepGuard: CRITICAL ALERT!";
  message := "You've been working way too long! Please rest NOW.";
  app_name := "SleepGuard";
  timeout := 10
|}.

Definition high_fatigue : Notification := {|
  title := "⚠️ SleepGuard: High Fatigue Detected";
  message := "Consider taking a break soon. Your productivity is declining.";
  app_name := "SleepGuard";
  timeout := 8
|}.

Definition fatigue_warning (session : string) : Notification := {|
  title := "💡 SleepGuard: Fatigue Warning";
  message := "You've been working for " ++ session ++ ". Time for a break?";
  app_name := "SleepGuard";
  timeout := 5
|}.

(** The [if]/[elif] chain of [send_notification]: the notification to send,
    or [None] for the bare [return]. *)
Definition select_notification (d : Daemon) (fatigue_level : Z) (now : datetime)
  : option Notification :=
  if 90 <=? fatigue_level then Some critical_alert
  else if 60 <=? fatigue_level then Some high_fatigue
  else if 30 <=? fatigue_level then
    Some (fatigue_warning (get_session_duration d now))
  else None.

(** ** Events *)

(** What [save_stats] writes, without the duration, the hour and the system
    information, which are read afresh at the time of the call and which
    nothing below depends on. *)
Record Stats := {
  stats_timestamp : datetime;
  stats_session_start : datetime;
  stats_total_keystrokes : Z;
  stats_current_keystroke_rate : Z;
  stats_fatigue_score : Z
}.

(** The lines the daemon prints. *)
Inductive Line :=
| NotificationSent (t : string)
| ErrorSendingNotification
| StatsSaved (fatigue keystrokes rate : Z)
| ErrorSavingStats
| ErrorInMonitorLoop
| StoppingDaemon
| DaemonStopped.

Inductive Event :=
| AlertFired (level score : Z)
| AlertReset (score : Z)
| Notified (n : Notification)
| Saved (s : Stats)
| Printed (l : Line)
| ListenerStopped.

(** [AlertFired level score] marks the body of the [if] in the [for] loop of
    [monitor_loop] ([send_notification(current_score)] called for [level]);
    [AlertReset score] marks the assignment
    [self.last_notification_level = 0] under [if current_score < 30].
    [Notified n] is a call of [notification.notify] that returned, [Saved s]
    a completed write of the stats file. *)

(** [send_notification]: [sink_ok] tells whether [notification.notify]
    returns ([true]) or raises ([false]); the [except] clause prints. *)
Definition send_notification (d : Daemon) (fatigue_level : Z) (now : datetime)
  (sink_ok : bool) : list Event :=
  match select_notification d fatigue_level now with
  | None => []
  | Some n =>
      if sink_ok then [Notified n; Printed (NotificationSent (title n))]
      else [Printed ErrorSendingNotification]
  end.

(** [save_stats]: [now] is the [datetime.now()] of the timestamp, [store_ok]
    tells whether the write succeeds or raises. *)
Definition save_stats (d : Daemon) (now : datetime) (store_ok : bool)
  : list Event :=
  if store_ok then
    [Saved {| stats_timestamp := now;
              stats_session_start := session_start d;
              stats_total_keystrokes := keystroke_count d;
              stats_current_keystroke_rate := get_keystroke_rate d;
              stats_fatigue_score := fatigue_score d |};
     Printed (StatsSaved (fatigue_score d) (keystroke_count d) (get_keystroke_rate d))]
  else [Printed ErrorSavingStats].

(** ** The monitoring loop *)

(** [sorted(notification_levels)]: the ascending rearrangement of a list of
    ints. *)
Fixpoint insert (x : Z) (l : list Z) : list Z :=
  match l with
  | [] => [x]
  | y :: l' => if x <=? y then x :: l else y :: insert x l'
  end.

Fixpoint sorted (l : list Z) : list Z :=
  match l with
  | [] => []
  | x :: l' => insert x (sorted l')
  end.

(** The [for] loop over the levels: the level at which it reaches [break],
    if any.  [last] is [self.last_notification_level], which the loop only
    assigns just before [break]. *)
Fixpoint crossed (current_score last : Z) (levels : list Z) : option Z :=
  match levels with
  | [] => None
  | level :: rest =>
      if (level <=? current_score) && (last <? level) then Some level
      else crossed current_score last rest
  end.

(** What the environment supplies to one iteration of the [while] loop, in
    the order the iteration asks for it. *)
Record Tick := {
  now_score : datetime;   (* [datetime.now()] of [calculate_fatigue_score] *)
  now_notify : datetime;  (* [datetime.now()] of [get_session_duration] *)
  sink_ok : bool;         (* does [notification.notify] return? *)
  typed : list datetime;  (* key presses since the score was computed *)
  now_check : datetime;   (* [datetime.now()] of the save test *)
  now_stats : datetime;   (* [datetime.now()] of the snapshot's timestamp *)
  store_ok : bool;        (* does the write of [save_stats] succeed? *)
  now_saved : datetime    (* [datetime.now()] assigned to [last_save_time] *)
}.

(** The loop's state: the object and the local [last_save_time]. *)
Record Loop := {
  daemon : Daemon;
  last_save_time : datetime
}.

(** The notification check and the reset of one iteration. *)
Definition check_notifications (d : Daemon) (current_score : Z) (tk : Tick)
  : Daemon * list Event :=
  let notification_levels := get (notification_levels (config d)) [30; 60; 90] in
  let '(d1, fired) :=
    match crossed current_score (last_notification_level d)
                  (sorted notification_levels) with
    | Some level =>
        (set_last_notification_level d level,
         AlertFired level current_score
           :: send_notification d current_score (now_notify tk) (sink_ok tk))
    | None => (d, [])
    end in
  if current_score <? 30
  then (set_last_notification_level d1 0, fired ++ [AlertReset current_score])
  else (d1, fired).

(** The save test of one iteration:
    [(datetime.now() - last_save_time).total_seconds() >= save_interval]. *)
Definition save_due (save_interval : Z) (last_save now : datetime) : bool :=
  Qle_bool (inject_Z save_interval) (total_seconds (now - last_save)).

(** The periodic save of one iteration. *)
Definition save_periodically (d : Daemon) (last_save : datetime) (tk : Tick)
  : datetime * list Event :=
  let save_interval := get (save_interval_seconds (config d)) 60 in
  if save_due save_interval last_save (now_check tk)
  then (now_saved tk, save_stats d (now_stats tk) (store_ok tk))
  else (last_save, []).

(** One iteration of the [while] loop.  An exception of
    [calculate_fatigue_score] is caught by the loop's [except], which prints
    and skips the rest of the iteration.  The score is computed under the
    lock and [save_stats] reads the object under the lock; the listener
    thread may deliver key presses in between, which the notification check
    does not see (it reads no field that [on_press] writes).  The listener
    delivers them also when the iteration is cut short. *)
Definition monitor_iteration (l : Loop) (tk : Tick) : Loop * list Event :=
  match calculate_fatigue_score (daemon l) (now_score tk) with
  | None =>
      ({| daemon := type_keys (daemon l) (typed tk);
          last_save_time := last_save_time l |},
       [Printed ErrorInMonitorLoop])
  | Some current_score =>
      let d1 := set_fatigue_score (daemon l) current_score in
      let '(d2, alerts) := check_notifications d1 current_score tk in
      let d3 := type_keys d2 (typed tk) in
      let '(saved_at, saves) := save_periodically d3 (last_save_time l) tk in
      ({| daemon := d3; last_save_time := saved_at |}, alerts ++ saves)
  end.

(** What happens while the daemon runs: the listener thread delivers a key
    press while the loop sleeps, or the loop wakes up for an iteration. *)
Inductive Input :=
| KeyPress (t : datetime)
| Wake (tk : Tick).

Definition step (l : Loop) (i : Input) : Loop * list Event :=
  match i with
  | KeyPress t =>
      ({| daemon := on_press (daemon l) t; last_save_time := last_save_time l |}, [])
  | Wake tk => monitor_iteration l tk
  end.

(** The [while self.running] loop over the inputs that arrive before the
    interrupt. *)
Fixpoint run (l : Loop) (inputs : list Input) : Loop * list Event :=
  match inputs with
  | [] => (l, [])
  | i :: rest =>
      if running (daemon l) then
        let '(l1, e1) := step l i in
        let '(l2, e2) := run l1 rest in
        (l2, e1 ++ e2)
      else (l, [])
  end.

(** [monitor_loop]: [now0] is the [datetime.now()] that initialises
    [last_save_time]. *)
Definition monitor_loop (d : Daemon) (now0 : datetime) (inputs : list Input)
  : Loop * list Event :=
  run {| daemon := d; last_save_time := now0 |} inputs.

(** [start], interrupted from the keyboard after [inputs]: the handler
    clears [running], stops the listener and saves once.  When the loop has
    ended by itself ([running] false) there is no interrupt to handle. *)
Definition start (d : Daemon) (now0 : datetime) (inputs : list Input)
  (final_now : datetime) (final_store_ok : bool) : Daemon * list Event :=
  let '(l, events) := monitor_loop d now0 inputs in
  if running (daemon l) then
    let d' := set_running (daemon l) false in
    (d', events ++ [Printed StoppingDaemon; ListenerStopped]
                ++ save_stats d' final_now final_store_ok
                ++ [Printed DaemonStopped])
  else (daemon l, events).

End Floats.

(** ** Reading a trace of events *)

(** The levels for which an alert fired, in order. *)
Fixpoint fired_levels (events : list Event) : list Z :=
  match events with
  | [] => []
  | AlertFired level _ :: rest => level :: fired_levels rest
  | _ :: rest => fired_levels rest
  end.

(** The notifications the sink accepted, in order. *)
Fixpoint notifications (events : list Event) : list Notification :=
  match events with
  | [] => []
  | Notified n :: rest => n :: notifications rest
  | _ :: rest => notifications rest
  end.

(** The snapshots written, in order. *)
Fixpoint snapshots (events : list Event) : list Stats :=
  match events with
  | [] => []
  | Saved s :: rest => s :: snapshots rest
  | _ :: rest => snapshots rest
  end.

(** The calls of [save_stats], in order: [true] for a completed write,
    [false] for one that raised. *)
Fixpoint save_calls (events : list Event) : list bool :=
  match events with
  | [] => []
  | Saved _ :: rest => true :: save_calls rest
  | Printed ErrorSavingStats :: rest => false :: save_calls rest
  | _ :: rest => save_calls rest
  end.

(** An event that is neither the firing of an alert nor a reset. *)
Definition quiet (e : Event) : Prop :=
  match e with
  | AlertFired _ _ | AlertReset _ => False
  | _ => True
  end.

(** [last_notification_level] after the events of a trace, from [last]. *)
Fixpoint level_after (last : Z) (events : list Event) : Z :=
  match events with
  | [] => last
  | AlertFired level _ :: rest => level_after level rest
  | AlertReset _ :: rest => level_after 0 rest
  | _ :: rest => level_after last rest
  end.

(** The discipline of the alert gate on a trace that starts at level [last]:
    an alert fires only for a level above the current one and raises the
    current level to it; a reset happens only at a score below 30 and
    lowers the current level to 0. *)
Fixpoint gate_trace (last : Z) (events : list Event) : Prop :=
  match events with
  | [] => True
  | AlertFired level _ :: rest => last < level /\ gate_trace level rest
  | AlertReset score :: rest => score < 30 /\ gate_trace 0 rest
  | _ :: rest => gate_trace last rest
  end.

(** Exact arithmetic: the rounding that changes nothing. *)
Definition exact (q : Q) : Q := q.

(** The timestamps of the key presses among the inputs. *)
Fixpoint presses (inputs : list Input) : list datetime :=
  match inputs with
  | [] => []
  | KeyPress t :: rest => t :: presses rest
  | Wake tk :: rest => typed tk ++ presses rest
  end.

(** The same iteration with another outcome of the notification sink. *)
Definition set_sink (ok : bool) (tk : Tick) : Tick := {|
  now_score := now_score tk;
  now_notify := now_notify tk;
  sink_ok := ok;
  typed := typed tk;
  now_check := now_check tk;
  now_stats := now_stats tk;
  store_ok := store_ok tk;
  now_saved := now_saved tk
|}.

(** The same input with a notification sink that raises. *)
Definition sink_fails (i : Input) : Input :=
  match i with
  | KeyPress t => KeyPress t
  | Wake tk => Wake (set_sink false tk)
  end.

(** Instants in order between [t0] and [t1]. *)
Fixpoint between (t0 : datetime) (times : list datetime) (t1 : datetime) : Prop :=
  match times with
  | [] => t0 <= t1
  | t :: rest => t0 <= t /\ between t rest t1
  end.

(** A clock that does not go back: the readings of the inputs, in the order
    they are taken, starting from [t0]. *)
Fixpoint ticking (t0 : datetime) (inputs : list Input) : Prop :=
  match inputs with
  | [] => True
  | KeyPress t :: rest => t0 <= t /\ ticking t rest
  | Wake tk :: rest =>
      t0 <= now_score tk /\ now_score tk <= now_notify tk
      /\ between (now_notify tk) (typed tk) (now_check tk)
      /\ now_check tk <= now_stats tk
      /\ now_stats tk <= now_saved tk /\ ticking (now_saved tk) rest
  end.

(** Two instants at least [interval] seconds apart, as the loop measures
    it: [(b - a).total_seconds() >= interval]. *)
Definition apart (rnd : Q -> Q) (interval : Z) (a b : datetime) : Prop :=
  Qle (inject_Z interval) (total_seconds rnd (b - a)).

(** Clock readings used in the examples: [h] o'clock and [s] seconds. *)
Definition oclock (h : Z) : datetime := h * 3600000000.
Definition seconds (s : Z) : timedelta := timedelta_seconds s.

(** Noon of 2024-01-01, the instant of the sample snapshot of
    [test_system.py]: 738885 days and 12 hours after [datetime.min]. *)
Definition noon_2024 : datetime := (738885 * 24 + 12) * 3600000000.

(** An iteration in which every clock reading is [t], no key is pressed and
    the sink and the store work. *)
Definition tick_at (t : datetime) : Tick := {|
  now_score := t;
  now_notify := t;
  sink_ok := true;
  typed := [];
  now_check := t;
  now_stats := t;
  store_ok := true;
  now_saved := t
|}.

(** A session that starts at 05:30 with the default configuration and is
    evaluated at 05:45, 06:10 and 06:40, with no key pressed. *)
Definition dawn : Loop := {|
  daemon := init default_config (oclock 5 + seconds 1800) (oclock 5 + seconds 1800);
  last_save_time := oclock 5 + seconds 1800
|}.

Definition dawn_inputs : list Input :=
  [Wake (tick_at (oclock 5 + seconds 2700));
   Wake (tick_at (oclock 6 + seconds 600));
   Wake (tick_at (oclock 6 + seconds 2400))].

(** ** The dashboard ([sleepguard_ui.py]) *)

(** The colour strings the dashboard uses: colorama's, or the empty strings
    of the fallback classes when colorama is not installed. *)
Record Palette := {
  fore_red : string;
  fore_green : string;
  fore_yellow : string;
  back_red : string;
  style_bright : string
}.

Definition no_colors : Palette := {|
  fore_red := "";
  fore_green := "";
  fore_yellow := "";
  back_red := "";
  style_bright := ""
|}.

(** [get_fatigue_color]. *)
Definition get_fatigue_color (p : Palette) (score : Z) : string :=
  if 90 <=? score then (fore_red p ++ back_red p ++ style_bright p)%string
  else if 60 <=? score then (fore_red p ++ style_bright p)%string
  else if 30 <=? score then (fore_yellow p ++ style_bright p)%string
  else (fore_green p ++ style_bright p)%string.

(** [get_mode_text]. *)
Definition get_mode_text (score : Z) : string :=
  if 90 <=? score then "CRITICAL ⚠️"
  else if 60 <=? score then "WARNING ⚡"
  else if 30 <=? score then "CAUTION 💡"
  else "NORMAL ✓".

(** The activity line of [display_dashboard]. *)
Definition rate_status (keystroke_rate : Z) : string :=
  if 60 <? keystroke_rate then "Active 🔥"
  else if 20 <? keystroke_rate then "Slow 🐌"
  else "Idle 😴".

(** The test of the time-based warning of [display_dashboard]:
    [current_hour >= 23 or current_hour < 6]. *)
Definition late_warning (current_hour : Z) : bool :=
  (23 <=? current_hour) || (current_hour <? 6).

(** [f"{n:02d}"]: at least two characters, filled with a zero. *)
Definition pad2 (n : Z) : string :=
  if (String.length (str n) <? 2)%nat then ("0" ++ str n)%string else str n.

(** The cells of a progress bar: the full block and the light shade. *)
Inductive Cell :=
| Filled
| Blank.

(** [c * n] for a one-character string [c]: nothing when [n] is negative. *)
Definition cells (c : Cell) (n : Z) : list Cell := repeat c (Z.to_nat n).

Section Dashboard.

Variable rnd : Q -> Q.

(** [a * b]. *)
Definition mul (a b : number) : number :=
  match a, b with
  | Int x, Int y => Int (x * y)
  | _, _ => Float (rnd (value a * value b))
  end.

(** [a / b], which is a float also for two ints; [b] nonzero. *)
Definition true_div (a b : number) : number := Float (rnd (value a / value b)).

(** [a // y] and [a % y] for a positive int [y]. *)
Definition floordiv_by (a : number) (y : Z) : number :=
  match a with
  | Int x => Int (x / y)
  | Float q => Float (floordiv q (inject_Z y))
  end.

Definition mod_by (a : number) (y : Z) : number :=
  match a with
  | Int x => Int (x mod y)
  | Float q => Float (fmod rnd q (inject_Z y))
  end.

(** The three numbers [format_duration] prints. *)
Definition duration_parts (seconds : number) : Z * Z * Z :=
  let hours := int (floordiv_by seconds 3600) in
  let minutes := int (floordiv_by (mod_by seconds 3600) 60) in
  let secs := int (mod_by seconds 60) in
  (hours, minutes, secs).

(** [format_duration]. *)
Definition format_duration (seconds : number) : string :=
  let '(hours, minutes, secs) := duration_parts seconds in
  (pad2 hours ++ ":" ++ pad2 minutes ++ ":" ++ pad2 secs)%string.

(** [draw_progress_bar]; [None] is the [ZeroDivisionError] of
    [value / max_value]. *)
Definition draw_progress_bar (amount max_value : number) (length : Z)
  : option (list Cell) :=
  if Qeq_bool (value max_value) 0 then None
  else
    let filled := int (mul (true_div amount max_value) (Int length)) in
    Some (cells Filled filled ++ cells Blank (length - filled)).

(** The two numbers [get_session_duration] prints. *)
Definition session_parts (d : Daemon) (now : datetime) : Z * Z :=
  let duration := now - session_start d in
  (trunc (floordiv (total_seconds rnd duration) 3600),
   trunc (floordiv (fmod rnd (total_seconds rnd duration) 3600) 60)).

End Dashboard.

(** ** Loading the configuration *)

(** What [load_config] finds at [config_path]: no file, a file that
    [json.load] reads as the dict [c], or a file that cannot be opened or
    parsed. *)
Inductive ConfigFile :=
| NoFile
| Readable (c : Config)
| Unreadable.

(** The lines [load_config] prints. *)
Inductive LoadLine :=
| CreatedDefaultConfig
| ErrorLoadingConfig.

(** [load_config]: [write_ok] tells whether writing the default file
    succeeds, and [leftover] is what a failed write leaves at the path.  The
    result is the dict returned, the file afterwards and the lines printed;
    every exception ends in [return {}]. *)
Definition load_config (file : ConfigFile) (write_ok : bool)
  (leftover : ConfigFile) : Config * ConfigFile * list LoadLine :=
  match file with
  | Readable c => (c, file, [])
  | NoFile =>
      if write_ok
      then (default_config, Readable default_config, [CreatedDefaultConfig])
      else (empty_config, leftover, [ErrorLoadingConfig])
  | Unreadable => (empty_config, file, [ErrorLoadingConfig])
  end.

(** Two configurations that every [self.config.get(key, default)] of the
    daemon reads alike. *)
Definition same_settings (c1 c2 : Config) : Prop :=
  get (bedtime_hour c1) 23 = get (bedtime_hour c2) 23
  /\ get (max_session_hours c1) (4 # 1)%Q = get (max_session_hours c2) (4 # 1)%Q
  /\ get (notification_levels c1) [30; 60; 90]
     = get (notification_levels c2) [30; 60; 90]
  /\ get (keystroke_window_seconds c1) 60 = get (keystroke_window_seconds c2) 60
  /\ get (save_interval_seconds c1) 60 = get (save_interval_seconds c2) 60.

(** Two objects that differ at most in configurations read alike. *)
Definition agree (d1 d2 : Daemon) : Prop :=
  same_settings (config d1) (config d2)
  /\ session_start d1 = session_start d2
  /\ keystroke_count d1 = keystroke_count d2
  /\ last_keystroke_time d1 = last_keystroke_time d2
  /\ keystroke_history d1 = keystroke_history d2
  /\ fatigue_score d1 = fatigue_score d2
  /\ last_notification_level d1 = last_notification_level d2
  /\ running d1 = running d2.

(** The same iteration with another outcome of the write of [save_stats]. *)
Definition set_store (ok : bool) (tk : Tick) : Tick := {|
  now_score := now_score tk;
  now_notify := now_notify tk;
  sink_ok := sink_ok tk;
  typed := typed tk;
  now_check := now_check tk;
  now_stats := now_stats tk;
  store_ok := ok;
  now_saved := now_saved tk
|}.

(** The default configuration with a maximal session of 0 hours. *)
Definition zero_max_config : Config := {|
  bedtime_hour := Some 23;
  critical_hour := Some 2;
  max_session_hours := Some 0%Q;
  notification_levels := Some [30; 60; 90];
  keystroke_window_seconds := Some 60;
  save_interval_seconds := Some 60
|}.

(** A session that started at 22:00, with one key pressed just before 03:00
    and three evaluations from 03:00 on, five seconds apart. *)
Definition night : Loop := {|
  daemon := on_press (init default_config (oclock 22) (oclock 22))
                     (oclock 27 - seconds 1);
  last_save_time := oclock 27 - seconds 1
|}.

Definition night_inputs : list Input :=
  [Wake (tick_at (oclock 27));
   Wake (tick_at (oclock 27 + seconds 5));
   Wake (tick_at (oclock 27 + seconds 10))].

(** An input that is not an iteration of the first hour of [d]'s session:
    the test [session_duration > 1] of [calculate_fatigue_score] holds at
    its instant. *)
Definition past_first_hour (rnd : Q -> Q) (d : Daemon) (i : Input) : Prop :=
  match i with
  | KeyPress _ => True
  | Wake tk => Qltb 1 (session_duration rnd d (now_score tk)) = true
  end.

(** * Properties *)

(** ** Factor 3: the rate tiers *)

Lemma len_repeat (t : datetime) (n : nat) : len (repeat t n) = Z.of_nat n.
Proof. unfold len. now rewrite repeat_length. Qed.

Lemma len_nonneg {A : Type} (l : list A) : 0 <= len l.
Proof. unfold len. lia. Qed.

(** C3.  The rate factor depends on the number [n] of retained events only:
    25 for the empty window, 30 for [0 < n < 30], 20 for [30 <= n < 60],
    10 for [60 <= n < 90], 0 from 90 on; so windows of 0, 29, 30, 59, 60, 89
    and 90 events score 25, 30, 20, 20, 10, 10 and 0. *)
Theorem keystroke_rate_score_tiers :
  (forall history : list datetime,
      (history = [] -> keystroke_rate_score history = 25)
      /\ (0 < len history < 30 -> keystroke_rate_score history = 30)
      /\ (30 <= len history < 60 -> keystroke_rate_score history = 20)
      /\ (60 <= len history < 90 -> keystroke_rate_score history = 10)
      /\ (90 <= len history -> keystroke_rate_score history = 0))
  /\ (forall t : datetime,
         keystroke_rate_score (repeat t 0) = 25
         /\ keystroke_rate_score (repeat t 29) = 30
         /\ keystroke_rate_score (repeat t 30) = 20
         /\ keystroke_rate_score (repeat t 59) = 20
         /\ keystroke_rate_score (repeat t 60) = 10
         /\ keystroke_rate_score (repeat t 89) = 10
         /\ keystroke_rate_score (repeat t 90) = 0).
Proof.
  split.
  - intros history. unfold keystroke_rate_score.
    repeat split; intros H; try (subst history; reflexivity);
      repeat match goal with
             | |- context [?a <? ?b] => destruct (Z.ltb_spec a b); try lia
             end.
  - intros t. unfold keystroke_rate_score.
    rewrite !len_repeat. repeat split.
Qed.

(** ** Factor 1: the time of day *)

Lemma late_night_iff (bedtime h : Z) :
  late_night bedtime h = true <-> bedtime <= h \/ h < 6.
Proof.
  unfold late_night. rewrite orb_true_iff, Z.leb_le, Z.ltb_lt. reflexivity.
Qed.

Lemma time_score_late (bedtime h : Z) :
  late_night bedtime h = true ->
  time_score bedtime h = Z.min 30 (hours_past_bedtime bedtime h * 7).
Proof. unfold time_score. now intros ->. Qed.

Lemma time_score_upper (bedtime h : Z) : time_score bedtime h <= 30.
Proof. unfold time_score. destruct (late_night bedtime h); lia. Qed.

Lemma hours_past_bedtime_nonneg (bedtime h : Z) :
  bedtime <= 24 -> 0 <= h -> 0 <= hours_past_bedtime bedtime h.
Proof.
  unfold hours_past_bedtime. destruct (Z.leb_spec bedtime h); lia.
Qed.

Lemma time_score_lower (bedtime h : Z) :
  bedtime <= 24 -> 0 <= h -> 0 <= time_score bedtime h.
Proof.
  intros Hb Hh. unfold time_score.
  pose proof (hours_past_bedtime_nonneg bedtime h Hb Hh).
  destruct (late_night bedtime h); lia.
Qed.

(** C4, the claim's sample values against the code: at bedtime 23 the hour
    23 is zero hours past bedtime and scores 0, not 7, and the hour 0 is one
    hour past bedtime and scores 7, not 14. *)
Lemma time_score_bedtime_23_samples_differ :
  hours_past_bedtime 23 23 = 0 /\ time_score 23 23 = 0 /\ time_score 23 23 <> 7
  /\ hours_past_bedtime 23 0 = 1 /\ time_score 23 0 = 7 /\ time_score 23 0 <> 14.
Proof. repeat split; discriminate. Qed.

(** C4, amended.  Outside the late-night band the time factor is 0; inside
    it is [min(30, hours_past_bedtime * 7)], where [hours_past_bedtime] is
    [hour - bedtime] from bedtime on and [(24 - bedtime) + hour] before; it
    does not decrease when [hours_past_bedtime] grows; and at bedtime 23 it
    is 0 at hour 23, 7 at hour 0, 28 at hour 3 and 30 (clamped from 35) at
    hour 4. *)
Theorem time_score_band :
  (forall bedtime h : Z,
      (late_night bedtime h = true <-> bedtime <= h \/ h < 6)
      /\ (late_night bedtime h = false -> time_score bedtime h = 0)
      /\ (late_night bedtime h = true ->
          time_score bedtime h = Z.min 30 (hours_past_bedtime bedtime h * 7))
      /\ (bedtime <= h -> hours_past_bedtime bedtime h = h - bedtime)
      /\ (h < bedtime -> hours_past_bedtime bedtime h = (24 - bedtime) + h))
  /\ (forall bedtime h1 h2 : Z,
         late_night bedtime h1 = true -> late_night bedtime h2 = true ->
         hours_past_bedtime bedtime h1 <= hours_past_bedtime bedtime h2 ->
         time_score bedtime h1 <= time_score bedtime h2)
  /\ (time_score 23 23 = 0 /\ time_score 23 0 = 7 /\ time_score 23 3 = 28
      /\ hours_past_bedtime 23 4 * 7 = 35 /\ time_score 23 4 = 30).
Proof.
  split; [|split].
  - intros bedtime h. split; [apply late_night_iff|].
    split; [unfold time_score; now intros ->|].
    split; [apply time_score_late|].
    unfold hours_past_bedtime.
    split; intros H; destruct (Z.leb_spec bedtime h); lia.
  - intros bedtime h1 h2 L1 L2 Hle.
    rewrite (time_score_late _ _ L1), (time_score_late _ _ L2). lia.
  - repeat split.
Qed.

(** C10, the claim against the code: with bedtime 2 the hour 1 is in the
    band but before bedtime, so the code takes [(24 - 2) + 1 = 23] hours past
    bedtime and scores 30, where [hour - bedtime] would give [min(30, -7)]. *)
Lemma time_score_early_bedtime_before_bedtime :
  late_night 2 1 = true
  /\ hours_past_bedtime 2 1 = 23
  /\ time_score 2 1 = 30
  /\ time_score 2 1 <> Z.min 30 ((1 - 2) * 7).
Proof. repeat split; discriminate. Qed.

(** C10, amended.  When the bedtime hour is below 6 every hour is in the
    late-night band, so no hour has its time factor forced to 0: the factor
    is [min(30, hours_past_bedtime * 7)] with [hours_past_bedtime] equal to
    [hour - bedtime] from bedtime on and to [(24 - bedtime) + hour] before
    bedtime; hour 23 at bedtime 2 gives the clamped 30. *)
Theorem time_score_early_bedtime (bedtime h : Z) :
  bedtime < 6 ->
  late_night bedtime h = true
  /\ time_score bedtime h = Z.min 30 (hours_past_bedtime bedtime h * 7)
  /\ (bedtime <= h -> hours_past_bedtime bedtime h = h - bedtime)
  /\ (h < bedtime -> hours_past_bedtime bedtime h = (24 - bedtime) + h)
  /\ time_score 2 23 = 30.
Proof.
  intros Hb.
  assert (L : late_night bedtime h = true) by (apply late_night_iff; lia).
  split; [exact L|]. split; [now apply time_score_late|].
  unfold hours_past_bedtime.
  repeat split; try intros H; destruct (Z.leb_spec bedtime h); lia.
Qed.

Lemma time_score_early_bedtime_witness :
  2 < 6
  /\ late_night 2 23 = true
  /\ time_score 2 23 = Z.min 30 (hours_past_bedtime 2 23 * 7).
Proof.
  split; [lia|].
  destruct (time_score_early_bedtime 2 23 ltac:(lia)) as (L & T & _).
  split; [exact L | exact T].
Defined.

(** ** The keystroke window *)

Lemma recent_In (c x : datetime) (h : list datetime) :
  In x (recent c h) <-> In x h /\ c < x.
Proof. unfold recent. rewrite filter_In, Z.ltb_lt. reflexivity. Qed.

Lemma recent_app (c : datetime) (h1 h2 : list datetime) :
  recent c (h1 ++ h2) = recent c h1 ++ recent c h2.
Proof. apply filter_app. Qed.

Lemma on_press_history (d : Daemon) (t : datetime) :
  0 < get (keystroke_window_seconds (config d)) 60 ->
  keystroke_history (on_press d t)
  = recent (t - timedelta_seconds (get (keystroke_window_seconds (config d)) 60))
      (keystroke_history d) ++ [t].
Proof.
  intros W. cbn [on_press keystroke_history]. rewrite recent_app. f_equal.
  unfold recent, timedelta_seconds. cbn [filter].
  destruct (Z.ltb_spec
              (t - get (keystroke_window_seconds (config d)) 60 * 1000000) t);
    [reflexivity | lia].
Qed.

Lemma on_press_In (d : Daemon) (t x : datetime) :
  In x (keystroke_history (on_press d t)) -> In x (keystroke_history d) \/ x = t.
Proof.
  cbn [on_press keystroke_history]. rewrite recent_In, in_app_iff.
  cbn [In]. intros [[H | [H | []]] _]; auto.
Qed.

Lemma get_keystroke_rate_len (d : Daemon) :
  get_keystroke_rate d = len (keystroke_history d).
Proof.
  unfold get_keystroke_rate. pose proof (len_nonneg (keystroke_history d)).
  destruct (Z.ltb_spec 0 (len (keystroke_history d))); lia.
Qed.

(** Key presses write the counter, the time of the last press and the
    window, and nothing else. *)
Lemma type_keys_frame (times : list datetime) :
  forall d : Daemon,
    config (type_keys d times) = config d
    /\ running (type_keys d times) = running d
    /\ last_notification_level (type_keys d times) = last_notification_level d
    /\ fatigue_score (type_keys d times) = fatigue_score d
    /\ session_start (type_keys d times) = session_start d.
Proof.
  unfold type_keys.
  induction times as [|t times IH]; intros d; cbn [fold_left]; [now repeat split|].
  destruct (IH (on_press d t)) as (? & ? & ? & ? & ?). now repeat split.
Qed.

Lemma type_keys_In (times : list datetime) :
  forall (d : Daemon) (x : datetime),
    In x (keystroke_history (type_keys d times)) ->
    In x (keystroke_history d) \/ In x times.
Proof.
  unfold type_keys.
  induction times as [|t times IH]; intros d x; cbn [fold_left In]; [auto|].
  intros H. destruct (IH _ _ H) as [H1 | H1]; [|auto].
  destruct (on_press_In _ _ _ H1); auto.
Qed.

Section Engine.

Variable rnd : Q -> Q.

(** The notification check only ever assigns [last_notification_level]. *)
Lemma check_notifications_frame (d : Daemon) (s : Z) (tk : Tick) :
  exists level,
    fst (check_notifications rnd d s tk) = set_last_notification_level d level.
Proof.
  unfold check_notifications.
  destruct (crossed s (last_notification_level d) _) as [level|];
    destruct (s <? 30); cbn [fst].
  - now exists 0.
  - now exists level.
  - now exists 0.
  - exists (last_notification_level d). now destruct d.
Qed.

(** An iteration of the loop leaves the window as it finds it, but for the
    keys pressed meanwhile: nothing in [monitor_loop] or
    [calculate_fatigue_score] prunes. *)
Lemma monitor_iteration_daemon (l : Loop) (tk : Tick) :
  daemon (fst (monitor_iteration rnd l tk)) = type_keys (daemon l) (typed tk)
  \/ exists s level,
       daemon (fst (monitor_iteration rnd l tk))
       = type_keys (set_last_notification_level
                      (set_fatigue_score (daemon l) s) level) (typed tk).
Proof.
  unfold monitor_iteration.
  destruct (calculate_fatigue_score rnd (daemon l) (now_score tk)) as [s|];
    [right | now left].
  destruct (check_notifications_frame (set_fatigue_score (daemon l) s) s tk)
    as [level E].
  destruct (check_notifications rnd _ s tk) as [d2 alerts]. cbn [fst] in E.
  destruct (save_periodically rnd _ (last_save_time l) tk) as [saved_at saves].
  cbn [fst daemon]. subst d2. now exists s, level.
Qed.

Lemma monitor_iteration_history (l : Loop) (tk : Tick) :
  typed tk = [] ->
  keystroke_history (daemon (fst (monitor_iteration rnd l tk)))
  = keystroke_history (daemon l).
Proof.
  intros T. destruct (monitor_iteration_daemon l tk) as [-> | (s & level & ->)];
    now rewrite T.
Qed.

Lemma step_history_In (l : Loop) (i : Input) (x : datetime) :
  In x (keystroke_history (daemon (fst (step rnd l i)))) ->
  In x (keystroke_history (daemon l)) \/ In x (presses [i]).
Proof.
  destruct i as [t | tk]; cbn [step presses].
  - cbn [fst daemon In]. intros H.
    destruct (on_press_In _ _ _ H); auto.
  - rewrite app_nil_r.
    destruct (monitor_iteration_daemon l tk) as [-> | (s & level & ->)];
      intros H; apply type_keys_In in H; exact H.
Qed.

Lemma presses_cons (i : Input) (rest : list Input) :
  presses (i :: rest) = presses [i] ++ presses rest.
Proof.
  destruct i as [t | tk]; cbn [presses app]; [reflexivity|].
  now rewrite app_nil_r.
Qed.

Lemma run_history_In (inputs : list Input) :
  forall (l : Loop) (x : datetime),
    In x (keystroke_history (daemon (fst (run rnd l inputs)))) ->
    In x (keystroke_history (daemon l)) \/ In x (presses inputs).
Proof.
  induction inputs as [|i rest IH]; intros l x; cbn [run].
  - cbn [fst]. auto.
  - destruct (running (daemon l)); [|cbn [fst]; auto].
    pose proof (step_history_In l i x) as Hs.
    destruct (step rnd l i) as [l1 e1]. cbn [fst] in Hs.
    specialize (IH l1 x).
    destruct (run rnd l1 rest) as [l2 e2]. cbn [fst] in IH |- *.
    rewrite presses_cons, in_app_iff. intros H.
    destruct (IH H) as [H1 | H1]; [|auto].
    destruct (Hs H1); auto.
Qed.

(** C7, the claim's window against the code.  On 2024-01-01 the session
    starts at 11:00, a key is pressed at 11:59:00 and the next one at noon,
    exactly the 60 seconds of the default window later.  Before the second
    press the first event is retained, and at noon it is within the window:
    it is 60 seconds old, not older.  The history the claim describes is
    then both events; the filter [t > cutoff_time] of [on_press] drops the
    first, so that the history is the second event alone and the rate is 1,
    not 2. *)
Lemma keystroke_window_drops_boundary_event :
  let d := on_press (init default_config (noon_2024 - seconds 3600)
                          (noon_2024 - seconds 3600))
                    (noon_2024 - seconds 60) in
  let window := get (keystroke_window_seconds (config d)) 60 in
  window = 60
  /\ keystroke_history d = [noon_2024 - seconds 60]
  /\ noon_2024 - (noon_2024 - seconds 60) <= timedelta_seconds window
  /\ within_window window noon_2024 (keystroke_history d) ++ [noon_2024]
     = [noon_2024 - seconds 60; noon_2024]
  /\ keystroke_history (on_press d noon_2024) = [noon_2024]
  /\ keystroke_history (on_press d noon_2024)
     <> within_window window noon_2024 (keystroke_history d) ++ [noon_2024]
  /\ ~ In (noon_2024 - seconds 60) (keystroke_history (on_press d noon_2024))
  /\ get_keystroke_rate (on_press d noon_2024) = 1.
Proof.
  cbv zeta. split; [reflexivity|]. split; [reflexivity|].
  split; [vm_compute; discriminate|]. split; [reflexivity|].
  split; [reflexivity|]. split; [vm_compute; discriminate|].
  split; [|reflexivity].
  vm_compute. intros [H | []]. discriminate H.
Qed.

(** C7, amended.  With a positive window, a key press at [t] leaves exactly
    the events that were retained and are strictly newer than [t - window]
    (an event exactly [window] old is dropped), in their order, followed by
    [t]; every retained event is then newer than [t - window]; an event
    dropped by the press is in no later window, whatever key presses (at
    other instants) and loop iterations follow; and the rate is the number
    of retained events, 0 for the empty window. *)
Theorem keystroke_window_invariant (d : Daemon) (t : datetime) :
  0 < get (keystroke_window_seconds (config d)) 60 ->
  let cutoff :=
    t - timedelta_seconds (get (keystroke_window_seconds (config d)) 60) in
  keystroke_history (on_press d t) = recent cutoff (keystroke_history d) ++ [t]
  /\ Forall (fun x => cutoff < x) (keystroke_history (on_press d t))
  /\ (forall (x : datetime) (last_save : datetime) (inputs : list Input),
         ~ In x (keystroke_history (on_press d t)) ->
         ~ In x (presses inputs) ->
         ~ In x (keystroke_history
                   (daemon (fst (run rnd {| daemon := on_press d t;
                                            last_save_time := last_save |}
                                     inputs)))))
  /\ get_keystroke_rate (on_press d t) = len (recent cutoff (keystroke_history d)) + 1
  /\ (forall d' : Daemon,
         get_keystroke_rate d' = len (keystroke_history d')
         /\ (keystroke_history d' = [] -> get_keystroke_rate d' = 0)).
Proof.
  intros W cutoff.
  pose proof (on_press_history d t W) as E. fold cutoff in E.
  split; [exact E|]. split; [|split; [|split]].
  - rewrite E. apply Forall_app. split.
    + apply Forall_forall. intros x Hx. now apply recent_In in Hx.
    + constructor; [|constructor]. unfold cutoff, timedelta_seconds. lia.
  - intros x last_save inputs Hout Hnew Hin.
    apply run_history_In in Hin. cbn [daemon] in Hin. tauto.
  - rewrite get_keystroke_rate_len, E. unfold len.
    rewrite length_app. cbn [List.length]. lia.
  - intros d'. split; [apply get_keystroke_rate_len|].
    intros Hnil. rewrite get_keystroke_rate_len, Hnil. reflexivity.
Qed.

End Engine.

Lemma keystroke_window_invariant_witness :
  let d := on_press
             (on_press (init default_config (noon_2024 - seconds 3600)
                             (noon_2024 - seconds 3600))
                       (noon_2024 - seconds 61))
             (noon_2024 - seconds 59) in
  0 < get (keystroke_window_seconds (config d)) 60
  /\ keystroke_history d = [noon_2024 - seconds 61; noon_2024 - seconds 59]
  /\ keystroke_history (on_press d noon_2024)
     = [noon_2024 - seconds 59; noon_2024]
  /\ get_keystroke_rate (on_press d noon_2024) = 2.
Proof.
  cbv zeta. split; [reflexivity|]. split; [reflexivity|].
  destruct (keystroke_window_invariant exact
              (on_press
                 (on_press (init default_config (noon_2024 - seconds 3600)
                                 (noon_2024 - seconds 3600))
                           (noon_2024 - seconds 61))
                 (noon_2024 - seconds 59))
              noon_2024 ltac:(reflexivity)) as (E & _ & _ & R & _).
  split; [rewrite E; reflexivity | rewrite R; reflexivity].
Defined.

(** C5, the code at an idle session.  The session starts at noon with the
    default configuration, one key is pressed one second later, and the
    loop evaluates ten minutes after that, far beyond the 60-second window.
    The iteration does not prune: the stale event is still in the window,
    the snapshot reports a rate of 1, the rate factor is the 30 of a low
    nonzero rate, and the score of 30 fires the first alert.  With the window
    emptied the same evaluation would score 25 and fire nothing. *)
Theorem idle_window_keeps_stale_keystroke :
  let d := on_press (init default_config (oclock 12) (oclock 12))
                    (oclock 12 + seconds 1) in
  let tk := tick_at (oclock 12 + seconds 601) in
  let r := monitor_iteration exact {| daemon := d; last_save_time := oclock 12 |} tk in
  last_keystroke_time d + seconds 60 < now_score tk
  /\ keystroke_history (daemon (fst r)) = [oclock 12 + seconds 1]
  /\ get_keystroke_rate (daemon (fst r)) = 1
  /\ map stats_current_keystroke_rate (snapshots (snd r)) = [1]
  /\ keystroke_rate_score (keystroke_history d) = 30
  /\ fatigue_score (daemon (fst r)) = 30
  /\ fired_levels (snd r) = [30]
  /\ calculate_fatigue_score exact
       (init default_config (oclock 12) (oclock 12)) (oclock 12 + seconds 601)
     = Some 25.
Proof. vm_compute. repeat split. Qed.

(** ** The alert gate *)

Lemma insert_In (x y : Z) (l : list Z) : In y (insert x l) <-> y = x \/ In y l.
Proof.
  induction l as [|a l IH]; cbn [insert].
  - cbn [In]. intuition congruence.
  - destruct (x <=? a); cbn [In]; [intuition congruence|].
    rewrite IH. intuition congruence.
Qed.

Lemma sorted_In (y : Z) (l : list Z) : In y (sorted l) <-> In y l.
Proof.
  induction l as [|a l IH]; cbn [sorted]; [reflexivity|].
  rewrite insert_In, IH. cbn [In]. intuition congruence.
Qed.

Lemma insert_ascending (x : Z) (l : list Z) :
  StronglySorted Z.le l -> StronglySorted Z.le (insert x l).
Proof.
  induction 1 as [|a l Hl IH Ha]; cbn [insert].
  - repeat constructor.
  - destruct (Z.leb_spec x a).
    + constructor; [now constructor|].
      constructor; [assumption|].
      rewrite Forall_forall in Ha |- *. intros z Hz. specialize (Ha z Hz). lia.
    + constructor; [assumption|].
      rewrite Forall_forall in Ha |- *. intros z Hz.
      apply insert_In in Hz. destruct Hz as [-> | Hz]; [lia | auto].
Qed.

Lemma sorted_ascending (l : list Z) : StronglySorted Z.le (sorted l).
Proof.
  induction l as [|a l IH]; cbn [sorted]; [constructor|].
  now apply insert_ascending.
Qed.

Lemma insert_permutation (x : Z) (l : list Z) : Permutation (x :: l) (insert x l).
Proof.
  induction l as [|a l IH]; cbn [insert]; [reflexivity|].
  destruct (x <=? a); [reflexivity|].
  rewrite perm_swap. now constructor.
Qed.

Lemma sorted_permutation (l : list Z) : Permutation l (sorted l).
Proof.
  induction l as [|a l IH]; cbn [sorted]; [constructor|].
  rewrite <- insert_permutation. now constructor.
Qed.

(** Whatever the order of the list, a level returned by [crossed] is
    crossed and above the last one. *)
Lemma crossed_some (s last : Z) (levels : list Z) (level : Z) :
  crossed s last levels = Some level ->
  In level levels /\ level <= s /\ last < level.
Proof.
  induction levels as [|a levels IH]; cbn [crossed]; [discriminate|].
  destruct (Z.leb_spec a s), (Z.ltb_spec last a); cbn [andb In];
    try (intros E; destruct (IH E) as (? & ? & ?); tauto).
  intros [= ->]. tauto.
Qed.

Lemma crossed_none (s last : Z) (levels : list Z) :
  crossed s last levels = None ->
  forall level, In level levels -> ~ (level <= s /\ last < level).
Proof.
  induction levels as [|a levels IH]; cbn [crossed]; [intros _ ? []|].
  destruct (Z.leb_spec a s), (Z.ltb_spec last a); cbn [andb];
    try discriminate;
    intros E level [<- | Hin]; try lia; now apply IH.
Qed.

(** On an ascending list the level returned is the lowest such level. *)
Lemma crossed_lowest (s last : Z) (levels : list Z) (level : Z) :
  StronglySorted Z.le levels ->
  crossed s last levels = Some level ->
  forall level', In level' levels -> level' <= s -> last < level' ->
                 level <= level'.
Proof.
  induction 1 as [|a levels Hl IH Ha]; cbn [crossed]; [discriminate|].
  rewrite Forall_forall in Ha.
  destruct (Z.leb_spec a s), (Z.ltb_spec last a); cbn [andb];
    try (intros E level' [<- | Hin] ? ?; [lia | now apply IH]).
  intros [= <-] level' [<- | Hin] _ _; [lia | now apply Ha].
Qed.

Lemma fired_levels_app (a b : list Event) :
  fired_levels (a ++ b) = fired_levels a ++ fired_levels b.
Proof.
  induction a as [|e a IH]; [reflexivity|].
  destruct e; cbn [app fired_levels]; now rewrite IH.
Qed.

Lemma notifications_app (a b : list Event) :
  notifications (a ++ b) = notifications a ++ notifications b.
Proof.
  induction a as [|e a IH]; [reflexivity|].
  destruct e; cbn [app notifications]; now rewrite IH.
Qed.

Lemma level_after_app (a b : list Event) :
  forall last, level_after last (a ++ b) = level_after (level_after last a) b.
Proof.
  induction a as [|e a IH]; intros last; [reflexivity|].
  destruct e; cbn [app level_after]; apply IH.
Qed.

Lemma gate_trace_app (a b : list Event) :
  forall last,
    gate_trace last (a ++ b)
    <-> gate_trace last a /\ gate_trace (level_after last a) b.
Proof.
  induction a as [|e a IH]; intros last.
  - cbn [app gate_trace level_after]. tauto.
  - destruct e; cbn [app gate_trace level_after]; rewrite ?IH; tauto.
Qed.

Lemma quiet_level_after (events : list Event) (last : Z) :
  Forall quiet events -> level_after last events = last.
Proof.
  induction 1 as [|e events He _ IH]; [reflexivity|].
  destruct e; cbn [quiet] in He; try contradiction; exact IH.
Qed.

Lemma quiet_gate_trace (events : list Event) (last : Z) :
  Forall quiet events -> gate_trace last events.
Proof.
  induction 1 as [|e events He _ IH]; [exact I|].
  destruct e; cbn [quiet] in He; try contradiction; exact IH.
Qed.

Lemma quiet_fired_levels (events : list Event) :
  Forall quiet events -> fired_levels events = [].
Proof.
  induction 1 as [|e events He _ IH]; [reflexivity|].
  destruct e; cbn [quiet] in He; try contradiction; exact IH.
Qed.

Lemma quiet_no_reset (events : list Event) (s : Z) :
  Forall quiet events -> ~ In (AlertReset s) events.
Proof.
  rewrite Forall_forall. intros Hq Hin. exact (Hq _ Hin).
Qed.

Section Gate.

Variable rnd : Q -> Q.

Lemma send_notification_cases (d : Daemon) (s : Z) (now : datetime) (ok : bool) :
  send_notification rnd d s now ok = []
  \/ (exists n, select_notification rnd d s now = Some n /\ ok = true
                /\ send_notification rnd d s now ok
                   = [Notified n; Printed (NotificationSent (title n))])
  \/ (exists n, select_notification rnd d s now = Some n /\ ok = false
                /\ send_notification rnd d s now ok
                   = [Printed ErrorSendingNotification]).
Proof.
  unfold send_notification.
  destruct (select_notification rnd d s now) as [n|]; [|now left].
  right. destruct ok; [left | right]; now exists n.
Qed.

Lemma send_notification_quiet (d : Daemon) (s : Z) (now : datetime) (ok : bool) :
  Forall quiet (send_notification rnd d s now ok).
Proof.
  destruct (send_notification_cases d s now ok)
    as [-> | [(n & _ & _ & ->) | (n & _ & _ & ->)]];
    repeat constructor.
Qed.

Lemma send_notification_at_most_one (d : Daemon) (s : Z) (now : datetime)
  (ok : bool) :
  (List.length (notifications (send_notification rnd d s now ok)) <= 1)%nat.
Proof.
  destruct (send_notification_cases d s now ok)
    as [-> | [(n & _ & _ & ->) | (n & _ & _ & ->)]];
    cbn [notifications List.length]; lia.
Qed.

Lemma save_stats_quiet (d : Daemon) (now : datetime) (ok : bool) :
  Forall quiet (save_stats d now ok).
Proof. unfold save_stats. destruct ok; repeat constructor. Qed.

Lemma set_last_notification_level_same (d : Daemon) :
  set_last_notification_level d (last_notification_level d) = d.
Proof. now destruct d. Qed.

(** C2.  One pass of the alert gate at score [s].  Either some configured
    level is crossed ([L <= s]) and above the last alert level: then exactly
    one alert fires, for the lowest such level [L], the notification is
    built from [s] itself, and the level becomes [L]; or no level is, and
    nothing fires.  The reset comes after: it happens exactly when [s < 30]
    and then leaves the level at 0, also when an alert has just fired. *)
Theorem alert_gate_transition (d : Daemon) (s : Z) (tk : Tick) :
  let levels := get (notification_levels (config d)) [30; 60; 90] in
  let last := last_notification_level d in
  let r := check_notifications rnd d s tk in
  let resets := if s <? 30 then [AlertReset s] else [] in
  let settle := fun level : Z => if s <? 30 then 0 else level in
  ((exists L,
       In L levels /\ L <= s /\ last < L
       /\ (forall L', In L' levels -> L' <= s -> last < L' -> L <= L')
       /\ r = (set_last_notification_level d (settle L),
               AlertFired L s
                 :: send_notification rnd d s (now_notify tk) (sink_ok tk)
                 ++ resets))
   \/ ((forall L, In L levels -> ~ (L <= s /\ last < L))
       /\ r = (set_last_notification_level d (settle last), resets)))
  /\ (List.length (fired_levels (snd r)) <= 1)%nat
  /\ (List.length (notifications (snd r)) <= 1)%nat
  /\ ((exists s0, In (AlertReset s0) (snd r)) <-> s < 30)
  /\ (s < 30 -> last_notification_level (fst r) = 0).
Proof.
  intros levels last r resets settle.
  pose proof (send_notification_quiet d s (now_notify tk) (sink_ok tk)) as Hq.
  pose proof (send_notification_at_most_one d s (now_notify tk) (sink_ok tk))
    as H1.
  subst r. unfold check_notifications. fold levels. fold last.
  destruct (crossed s last (sorted levels)) as [L|] eqn:E.
  - destruct (crossed_some _ _ _ _ E) as (Hin & Hs & Hl).
    rewrite sorted_In in Hin.
    assert (Hlow : forall L', In L' levels -> L' <= s -> last < L' -> L <= L').
    { intros L' HL'. apply (crossed_lowest s last (sorted levels) L);
        [apply sorted_ascending | exact E | now apply sorted_In]. }
    subst resets settle. destruct (Z.ltb_spec s 30) as [Hlt | Hge].
    + split; [left; exists L; repeat split; auto|].
      cbn [fst snd last_notification_level set_last_notification_level].
      rewrite fired_levels_app, notifications_app, !length_app.
      cbn [fired_levels notifications].
      rewrite (quiet_fired_levels _ Hq). cbn [List.length].
      repeat split; try lia.
      exists s. right. apply in_or_app. right. now left.
    + split; [left; exists L; repeat split; auto; now rewrite app_nil_r|].
      cbn [fst snd fired_levels notifications].
      rewrite (quiet_fired_levels _ Hq). cbn [List.length].
      repeat split; try lia.
      intros (s0 & [Hs0 | Hs0]); [discriminate|].
      exfalso. exact (quiet_no_reset _ s0 Hq Hs0).
  - pose proof (crossed_none _ _ _ E) as Hnone.
    assert (Hno : forall L, In L levels -> ~ (L <= s /\ last < L)).
    { intros L HL. apply Hnone. now apply sorted_In. }
    subst resets settle. destruct (Z.ltb_spec s 30) as [Hlt | Hge].
    + split; [right; split; [exact Hno | reflexivity]|].
      cbn [fst snd app fired_levels notifications List.length
             last_notification_level set_last_notification_level].
      repeat split; try lia.
      exists s. now left.
    + split; [right; split; [exact Hno|]|].
      { subst last. now rewrite set_last_notification_level_same. }
      cbn [fst snd fired_levels notifications List.length].
      repeat split; try lia.
      intros (s0 & []).
Qed.

(** The events of one pass of the gate obey the gate's discipline and
    account for the level it leaves. *)
Lemma check_notifications_trace (d : Daemon) (s : Z) (tk : Tick) :
  gate_trace (last_notification_level d) (snd (check_notifications rnd d s tk))
  /\ last_notification_level (fst (check_notifications rnd d s tk))
     = level_after (last_notification_level d)
         (snd (check_notifications rnd d s tk)).
Proof.
  pose proof (send_notification_quiet d s (now_notify tk) (sink_ok tk)) as Hq.
  unfold check_notifications.
  destruct (crossed s (last_notification_level d) _) as [L|] eqn:E.
  - destruct (crossed_some _ _ _ _ E) as (_ & _ & Hl).
    destruct (Z.ltb_spec s 30) as [Hlt | Hge]; cbn [fst snd].
    + change ((AlertFired L s :: ?x) ++ ?y) with (AlertFired L s :: (x ++ y)).
      cbn [gate_trace level_after].
      rewrite gate_trace_app, level_after_app, (quiet_level_after _ L Hq).
      cbn [gate_trace level_after]. repeat split; auto.
      now apply quiet_gate_trace.
    + cbn [gate_trace level_after]. rewrite (quiet_level_after _ L Hq).
      repeat split; auto. now apply quiet_gate_trace.
  - destruct (Z.ltb_spec s 30) as [Hlt | Hge]; cbn; auto.
Qed.

Lemma save_periodically_quiet (d : Daemon) (last_save : datetime) (tk : Tick) :
  Forall quiet (snd (save_periodically rnd d last_save tk)).
Proof.
  unfold save_periodically. destruct (save_due rnd _ last_save (now_check tk)).
  - apply save_stats_quiet.
  - constructor.
Qed.

Lemma monitor_iteration_trace (l : Loop) (tk : Tick) :
  gate_trace (last_notification_level (daemon l))
             (snd (monitor_iteration rnd l tk))
  /\ last_notification_level (daemon (fst (monitor_iteration rnd l tk)))
     = level_after (last_notification_level (daemon l))
         (snd (monitor_iteration rnd l tk)).
Proof.
  unfold monitor_iteration.
  destruct (calculate_fatigue_score rnd (daemon l) (now_score tk)) as [s|].
  2:{ destruct (type_keys_frame (typed tk) (daemon l)) as (_ & _ & K & _).
      cbn [fst snd daemon gate_trace level_after]. now rewrite K. }
  pose proof (check_notifications_trace (set_fatigue_score (daemon l) s) s tk)
    as [Hg Hl].
  destruct (check_notifications rnd _ s tk) as [d2 alerts].
  pose proof (save_periodically_quiet (type_keys d2 (typed tk))
                (last_save_time l) tk) as Hq.
  destruct (type_keys_frame (typed tk) d2) as (_ & _ & K & _).
  destruct (save_periodically rnd _ (last_save_time l) tk) as [saved_at saves].
  cbn [fst snd daemon last_notification_level set_fatigue_score] in *.
  rewrite gate_trace_app, level_after_app, (quiet_level_after _ _ Hq), K.
  repeat split; auto. now apply quiet_gate_trace.
Qed.

Lemma step_trace (l : Loop) (i : Input) :
  gate_trace (last_notification_level (daemon l)) (snd (step rnd l i))
  /\ last_notification_level (daemon (fst (step rnd l i)))
     = level_after (last_notification_level (daemon l)) (snd (step rnd l i)).
Proof.
  destruct i as [t | tk]; [cbn; auto | apply monitor_iteration_trace].
Qed.

Lemma run_trace (inputs : list Input) :
  forall l : Loop,
    gate_trace (last_notification_level (daemon l)) (snd (run rnd l inputs))
    /\ last_notification_level (daemon (fst (run rnd l inputs)))
       = level_after (last_notification_level (daemon l))
           (snd (run rnd l inputs)).
Proof.
  induction inputs as [|i rest IH]; intros l; cbn [run]; [cbn; auto|].
  destruct (running (daemon l)); [|cbn; auto].
  pose proof (step_trace l i) as [Hg Hl].
  destruct (step rnd l i) as [l1 e1].
  specialize (IH l1). destruct (run rnd l1 rest) as [l2 e2].
  cbn [fst snd] in *.
  rewrite gate_trace_app, level_after_app, <- Hl. tauto.
Qed.

End Gate.

(** On a disciplined trace, an alert can only fire for a level above the
    current one unless a reset comes first. *)
Lemma gate_trace_next_alert (mid post : list Event) (L' s' : Z) :
  forall last,
    gate_trace last (mid ++ AlertFired L' s' :: post) ->
    (exists s0, s0 < 30 /\ In (AlertReset s0) mid) \/ last < L'.
Proof.
  induction mid as [|e mid IH]; intros last; cbn [app].
  - cbn [gate_trace]. tauto.
  - destruct e as [l s | s0 | n | st | ln |]; cbn [gate_trace]; intros Hg;
      try (destruct (IH _ Hg) as [(s1 & ? & ?) | ?];
           [left; exists s1; cbn [In]; now auto | now right]).
    + destruct Hg as [Hlt Hg].
      destruct (IH _ Hg) as [(s1 & ? & ?) | ?];
        [left; exists s1; cbn [In]; now auto | right; lia].
    + destruct Hg as [Hlt _]. left. exists s0. cbn [In]. auto.
Qed.

Lemma gate_trace_no_refire (pre mid post : list Event) (L s L' s' last : Z) :
  gate_trace last (pre ++ AlertFired L s :: mid ++ AlertFired L' s' :: post) ->
  L' <= L ->
  exists s0, s0 < 30 /\ In (AlertReset s0) mid.
Proof.
  rewrite gate_trace_app. cbn [gate_trace]. intros (_ & _ & Hg) Hle.
  destruct (gate_trace_next_alert _ _ _ _ _ Hg) as [H | H]; [exact H | lia].
Qed.

(** C6.  In the events of any run of the loop, from any state and over any
    key presses and iterations, two alerts of which the second is for the
    same level as the first or for a lower one are separated by a reset, and
    that reset was made at a score below 30. *)
Theorem no_second_alert_without_reset (rnd : Q -> Q) (l : Loop)
  (inputs : list Input) (pre mid post : list Event) (L s L' s' : Z) :
  snd (run rnd l inputs)
  = pre ++ AlertFired L s :: mid ++ AlertFired L' s' :: post ->
  L' <= L ->
  exists s0, s0 < 30 /\ In (AlertReset s0) mid.
Proof.
  intros E Hle. destruct (run_trace rnd inputs l) as [Hg _].
  rewrite E in Hg. exact (gate_trace_no_refire _ _ _ _ _ _ _ _ Hg Hle).
Qed.

Lemma no_second_alert_without_reset_witness :
  snd (run exact dawn dawn_inputs)
  = [] ++ AlertFired 30 55
       :: firstn 7 (skipn 1 (snd (run exact dawn dawn_inputs)))
       ++ AlertFired 30 36 :: skipn 9 (snd (run exact dawn dawn_inputs))
  /\ 30 <= 30
  /\ exists s0,
       s0 < 30
       /\ In (AlertReset s0) (firstn 7 (skipn 1 (snd (run exact dawn dawn_inputs)))).
Proof.
  split; [vm_compute; reflexivity|]. split; [lia|].
  apply (no_second_alert_without_reset exact dawn dawn_inputs []
           (firstn 7 (skipn 1 (snd (run exact dawn dawn_inputs))))
           (skipn 9 (snd (run exact dawn dawn_inputs))) 30 55 30 36);
    [vm_compute; reflexivity | lia].
Defined.

(** ** Notifications and the sink *)

Section Sink.

Variable rnd : Q -> Q.

Lemma check_notifications_sink (d : Daemon) (s : Z) (tk : Tick) (ok : bool) :
  fst (check_notifications rnd d s (set_sink ok tk))
  = fst (check_notifications rnd d s tk)
  /\ fired_levels (snd (check_notifications rnd d s (set_sink ok tk)))
     = fired_levels (snd (check_notifications rnd d s tk)).
Proof.
  pose proof (send_notification_quiet rnd d s (now_notify tk) ok) as Q1.
  pose proof (send_notification_quiet rnd d s (now_notify tk) (sink_ok tk)) as Q2.
  unfold check_notifications. cbn [set_sink now_notify sink_ok].
  destruct (crossed s (last_notification_level d) _) as [L|];
    destruct (s <? 30); cbn [fst snd]; split; try reflexivity;
    rewrite ?fired_levels_app; cbn [fired_levels];
    now rewrite (quiet_fired_levels _ Q1), (quiet_fired_levels _ Q2).
Qed.

Lemma snapshots_app (a b : list Event) :
  snapshots (a ++ b) = snapshots a ++ snapshots b.
Proof.
  induction a as [|e a IH]; [reflexivity|].
  destruct e; cbn [app snapshots]; now rewrite IH.
Qed.

Lemma monitor_iteration_sink (l : Loop) (tk : Tick) (ok : bool) :
  fst (monitor_iteration rnd l (set_sink ok tk)) = fst (monitor_iteration rnd l tk)
  /\ fired_levels (snd (monitor_iteration rnd l (set_sink ok tk)))
     = fired_levels (snd (monitor_iteration rnd l tk)).
Proof.
  unfold monitor_iteration. cbn [set_sink now_score].
  destruct (calculate_fatigue_score rnd (daemon l) (now_score tk)) as [s|];
    [|now split].
  destruct (check_notifications_sink (set_fatigue_score (daemon l) s) s tk ok)
    as [E1 E2].
  destruct (check_notifications rnd _ s (set_sink ok tk)) as [d2 alerts].
  destruct (check_notifications rnd _ s tk) as [d2' alerts'].
  cbn [fst snd] in E1, E2. subst d2'.
  unfold save_periodically. cbn [set_sink now_check now_stats store_ok now_saved].
  destruct (save_due rnd _ (last_save_time l) (now_check tk)); cbn [fst snd];
    rewrite !fired_levels_app, E2; now split.
Qed.

Lemma run_sink_fails (inputs : list Input) :
  forall l : Loop,
    fst (run rnd l (map sink_fails inputs)) = fst (run rnd l inputs)
    /\ fired_levels (snd (run rnd l (map sink_fails inputs)))
       = fired_levels (snd (run rnd l inputs)).
Proof.
  induction inputs as [|i rest IH]; intros l; cbn [map run]; [now split|].
  destruct (running (daemon l)); [|now split].
  assert (E : fst (step rnd l (sink_fails i)) = fst (step rnd l i)
              /\ fired_levels (snd (step rnd l (sink_fails i)))
                 = fired_levels (snd (step rnd l i))).
  { destruct i as [t | tk]; cbn [sink_fails step]; [now split|].
    apply monitor_iteration_sink. }
  destruct E as [E1 E2].
  destruct (step rnd l (sink_fails i)) as [l1 e1].
  destruct (step rnd l i) as [l1' e1']. cbn [fst snd] in E1, E2. subst l1'.
  destruct (IH l1) as [E3 E4].
  destruct (run rnd l1 (map sink_fails rest)) as [l2 e2].
  destruct (run rnd l1 rest) as [l2' e2']. cbn [fst snd] in *.
  rewrite !fired_levels_app. split; congruence.
Qed.

(** C9.  The notification depends on the score alone, at the fixed tiers:
    the critical alert from 90, the high-fatigue notice from 60 to 89, the
    warning with the formatted session duration from 30 to 59, and below 30
    nothing at all, whatever the sink.  When the sink raises, the error line
    is printed and nothing is sent; the loop reaches the same state (alert
    level, running flag, time of the last save) and fires the same alerts as
    with a working sink. *)
Theorem send_notification_tiers :
  (forall (d : Daemon) (s : Z) (now : datetime),
      (90 <= s -> select_notification rnd d s now = Some critical_alert)
      /\ (60 <= s < 90 -> select_notification rnd d s now = Some high_fatigue)
      /\ (30 <= s < 60 ->
          select_notification rnd d s now
          = Some (fatigue_warning (get_session_duration rnd d now)))
      /\ (s < 30 ->
          select_notification rnd d s now = None
          /\ forall ok, send_notification rnd d s now ok = [])
      /\ (forall n, select_notification rnd d s now = Some n ->
                    send_notification rnd d s now true
                    = [Notified n; Printed (NotificationSent (title n))]
                    /\ send_notification rnd d s now false
                       = [Printed ErrorSendingNotification]))
  /\ (forall session : string,
         message (fatigue_warning session)
         = ("You've been working for " ++ session ++ ". Time for a break?")%string)
  /\ (forall (l : Loop) (inputs : list Input),
         fst (run rnd l (map sink_fails inputs)) = fst (run rnd l inputs)
         /\ fired_levels (snd (run rnd l (map sink_fails inputs)))
            = fired_levels (snd (run rnd l inputs))).
Proof.
  split; [|split; [reflexivity | intros l inputs; apply run_sink_fails]].
  intros d s now. unfold send_notification, select_notification.
  repeat split; try intros H;
    repeat match goal with
           | |- context [?a <=? ?b] => destruct (Z.leb_spec a b); try lia
           | H : context [?a <=? ?b] |- _ => destruct (Z.leb_spec a b); try lia
           end;
    try reflexivity; try discriminate;
    try (injection H as <-; reflexivity).
Qed.

End Sink.

(** ** Saving *)

Lemma save_calls_app (a b : list Event) :
  save_calls (a ++ b) = save_calls a ++ save_calls b.
Proof.
  induction a as [|e a IH]; [reflexivity|].
  destruct e as [| | | |ln|]; try destruct ln; cbn [app save_calls];
    now rewrite IH.
Qed.

Lemma save_stats_calls (d : Daemon) (now : datetime) (ok : bool) :
  save_calls (save_stats d now ok) = [ok].
Proof. now destruct ok. Qed.

Lemma save_stats_snapshots (d : Daemon) (now : datetime) (ok : bool) :
  map stats_timestamp (snapshots (save_stats d now ok))
  = if ok then [now] else [].
Proof. now destruct ok. Qed.

Section Saving.

Variable rnd : Q -> Q.

Lemma send_notification_saves (d : Daemon) (s : Z) (now : datetime) (ok : bool) :
  save_calls (send_notification rnd d s now ok) = []
  /\ snapshots (send_notification rnd d s now ok) = [].
Proof.
  destruct (send_notification_cases rnd d s now ok)
    as [-> | [(n & _ & _ & ->) | (n & _ & _ & ->)]]; now split.
Qed.

Lemma check_notifications_saves (d : Daemon) (s : Z) (tk : Tick) :
  save_calls (snd (check_notifications rnd d s tk)) = []
  /\ snapshots (snd (check_notifications rnd d s tk)) = [].
Proof.
  destruct (send_notification_saves d s (now_notify tk) (sink_ok tk)) as [E1 E2].
  unfold check_notifications.
  destruct (crossed s (last_notification_level d) _) as [L|];
    destruct (s <? 30); cbn [fst snd];
    rewrite ?save_calls_app, ?snapshots_app; cbn [save_calls snapshots];
    rewrite ?E1, ?E2; now split.
Qed.

Lemma calculate_fatigue_score_returns (d : Daemon) (now : datetime) :
  ~ (get (max_session_hours (config d)) (4 # 1) == 0)%Q ->
  exists s, calculate_fatigue_score rnd d now = Some s.
Proof.
  intros Hmax. unfold calculate_fatigue_score, duration_score.
  destruct (Qltb 1 (session_duration rnd d now)); [|eauto].
  destruct (Qeq_bool _ 0) eqn:E; [|eauto].
  apply Qeq_bool_eq in E. contradiction.
Qed.

(** An iteration leaves the configuration and the running flag alone. *)
Lemma monitor_iteration_frame (l : Loop) (tk : Tick) :
  config (daemon (fst (monitor_iteration rnd l tk))) = config (daemon l)
  /\ running (daemon (fst (monitor_iteration rnd l tk))) = running (daemon l).
Proof.
  destruct (monitor_iteration_daemon rnd l tk) as [-> | (s & level & ->)].
  - destruct (type_keys_frame (typed tk) (daemon l)) as (C & R & _).
    now split.
  - destruct (type_keys_frame (typed tk)
                (set_last_notification_level (set_fatigue_score (daemon l) s)
                   level)) as (C & R & _).
    rewrite C, R. now split.
Qed.

Lemma step_frame (l : Loop) (i : Input) :
  config (daemon (fst (step rnd l i))) = config (daemon l)
  /\ running (daemon (fst (step rnd l i))) = running (daemon l).
Proof.
  destruct i as [t | tk]; cbn [step]; [now split|].
  apply monitor_iteration_frame.
Qed.

Lemma run_frame (inputs : list Input) :
  forall l : Loop,
    config (daemon (fst (run rnd l inputs))) = config (daemon l)
    /\ running (daemon (fst (run rnd l inputs))) = running (daemon l).
Proof.
  induction inputs as [|i rest IH]; intros l; cbn [run]; [now split|].
  destruct (running (daemon l)) eqn:R; [|now split].
  destruct (step_frame l i) as [C1 R1].
  destruct (step rnd l i) as [l1 e1]. cbn [fst] in C1, R1.
  destruct (IH l1) as [C2 R2].
  destruct (run rnd l1 rest) as [l2 e2]. cbn [fst] in *.
  split; congruence.
Qed.

(** The save of one iteration, when the score is computed. *)
Lemma monitor_iteration_save (l : Loop) (tk : Tick) (s : Z) :
  calculate_fatigue_score rnd (daemon l) (now_score tk) = Some s ->
  let due := save_due rnd (get (save_interval_seconds (config (daemon l))) 60)
               (last_save_time l) (now_check tk) in
  save_calls (snd (monitor_iteration rnd l tk))
  = (if due then [store_ok tk] else [])
  /\ map stats_timestamp (snapshots (snd (monitor_iteration rnd l tk)))
     = (if due && store_ok tk then [now_stats tk] else [])
  /\ last_save_time (fst (monitor_iteration rnd l tk))
     = (if due then now_saved tk else last_save_time l).
Proof.
  intros E due. unfold monitor_iteration. rewrite E.
  destruct (check_notifications_frame rnd (set_fatigue_score (daemon l) s) s tk)
    as [level F].
  destruct (check_notifications_saves (set_fatigue_score (daemon l) s) s tk)
    as [S1 S2].
  destruct (check_notifications rnd _ s tk) as [d2 alerts].
  cbn [fst snd] in F, S1, S2. unfold save_periodically.
  destruct (type_keys_frame (typed tk) d2) as (C & _).
  rewrite C. subst d2. cbn [set_last_notification_level set_fatigue_score config].
  fold due.
  destruct due; cbn [fst snd last_save_time andb];
    rewrite save_calls_app, snapshots_app, map_app, S1, S2; cbn [app map];
    rewrite ?save_stats_calls, ?save_stats_snapshots; now repeat split.
Qed.

End Saving.

Lemma save_due_iff (rnd : Q -> Q) (interval : Z) (last_save now : datetime) :
  save_due rnd interval last_save now = true <-> apart rnd interval last_save now.
Proof. unfold save_due, apart. apply Qle_bool_iff. Qed.

Lemma between_le (times : list datetime) :
  forall t0 t1 : datetime, between t0 times t1 -> t0 <= t1.
Proof.
  induction times as [|t times IH]; intros t0 t1; cbn [between]; [auto|].
  intros [H1 H2]. specialize (IH _ _ H2). lia.
Qed.

Section Spacing.

Variable rnd : Q -> Q.
Hypothesis rnd_monotone : forall x y : Q, (x <= y)%Q -> (rnd x <= rnd y)%Q.

Lemma total_seconds_monotone (a b : timedelta) :
  a <= b -> (total_seconds rnd a <= total_seconds rnd b)%Q.
Proof.
  intros H. unfold total_seconds. apply rnd_monotone.
  unfold Qdiv. apply Qmult_le_compat_r; [now rewrite <- Zle_Qle | discriminate].
Qed.

(** A wider gap is still a gap. *)
Lemma apart_wider (interval : Z) (a b a' b' : datetime) :
  a' <= a -> b <= b' -> apart rnd interval a b -> apart rnd interval a' b'.
Proof.
  unfold apart. intros Ha Hb H.
  eapply Qle_trans; [exact H|]. apply total_seconds_monotone. lia.
Qed.

(** Under a clock that does not go back, every snapshot of a run is written
    at least an interval after the last save before the run, and after every
    earlier snapshot of the run. *)
Lemma run_snapshots_apart (inputs : list Input) :
  forall (l : Loop) (t0 x : datetime),
    ticking t0 inputs -> x <= last_save_time l -> last_save_time l <= t0 ->
    let interval := get (save_interval_seconds (config (daemon l))) 60 in
    let stamps := map stats_timestamp (snapshots (snd (run rnd l inputs))) in
    Forall (apart rnd interval x) stamps
    /\ StronglySorted (apart rnd interval) stamps.
Proof.
  induction inputs as [|i rest IH]; intros l t0 x Ht Hx Hl; cbn [run].
  - cbn. split; constructor.
  - destruct (running (daemon l)); [|cbn; split; constructor].
    destruct i as [t | tk]; cbn [step ticking] in *.
    + destruct Ht as [Ht0 Ht].
      specialize (IH {| daemon := on_press (daemon l) t;
                        last_save_time := last_save_time l |} t x Ht).
      cbn [last_save_time daemon on_press config] in IH.
      destruct (run rnd _ rest) as [l2 e2]. cbn [snd app] in *.
      apply IH; lia.
    + destruct Ht as (T1 & T2 & T3 & T4 & T5 & Ht).
      apply between_le in T3.
      destruct (monitor_iteration_frame rnd l tk) as (C & _).
      destruct (calculate_fatigue_score rnd (daemon l) (now_score tk))
        as [s|] eqn:E.
      * destruct (monitor_iteration_save rnd l tk s E) as (_ & S & L).
        destruct (monitor_iteration rnd l tk) as [l1 e1].
        cbn [fst snd] in C, S, L.
        pose proof (IH l1 (now_saved tk) x Ht) as IHx.
        pose proof (IH l1 (now_saved tk) (now_stats tk) Ht) as IHs.
        rewrite C in IHx, IHs.
        destruct (run rnd l1 rest) as [l2 e2]. cbn [snd] in *.
        rewrite snapshots_app, map_app, S.
        destruct (save_due rnd _ (last_save_time l) (now_check tk)) eqn:D;
          cbn [andb] in *.
        -- apply save_due_iff in D.
           destruct (store_ok tk); cbn [app].
           ++ destruct IHx as [F1 S1]; [lia | lia |].
              destruct IHs as [F2 _]; [lia | lia |].
              split; constructor; auto.
              apply (apart_wider _ (last_save_time l) (now_check tk)); auto.
           ++ apply IHx; lia.
        -- cbn [app]. apply IHx; lia.
      * unfold monitor_iteration in *. rewrite E in *.
        cbn [fst snd app daemon] in *.
        specialize (IH {| daemon := type_keys (daemon l) (typed tk);
                          last_save_time := last_save_time l |}
                       (now_saved tk) x Ht).
        cbn [daemon last_save_time] in IH. rewrite C in IH.
        destruct (run rnd _ rest) as [l2 e2]. cbn [snd snapshots] in *.
        apply IH; lia.
Qed.

(** C8.  In an iteration that computes a score, [save_stats] is called
    exactly when the time since the last save, as the loop measures it, is at
    least the save interval, and then the time of the last save is renewed.
    Under a clock that does not go back, any two snapshots written by the
    loop are at least the interval apart.  On the interrupt the listener is
    stopped, and then [save_stats] is called exactly once, whatever the time
    of the last save. *)
Theorem periodic_and_final_save :
  (forall (l : Loop) (tk : Tick),
      ~ (get (max_session_hours (config (daemon l))) (4 # 1) == 0)%Q ->
      let interval := get (save_interval_seconds (config (daemon l))) 60 in
      (apart rnd interval (last_save_time l) (now_check tk)
       /\ save_calls (snd (monitor_iteration rnd l tk)) = [store_ok tk]
       /\ last_save_time (fst (monitor_iteration rnd l tk)) = now_saved tk)
      \/ (~ apart rnd interval (last_save_time l) (now_check tk)
          /\ save_calls (snd (monitor_iteration rnd l tk)) = []
          /\ last_save_time (fst (monitor_iteration rnd l tk)) = last_save_time l))
  /\ (forall (d : Daemon) (now0 : datetime) (inputs : list Input),
         ticking now0 inputs ->
         StronglySorted
           (apart rnd (get (save_interval_seconds (config d)) 60))
           (map stats_timestamp
                (snapshots (snd (monitor_loop rnd d now0 inputs)))))
  /\ (forall (d : Daemon) (now0 : datetime) (inputs : list Input)
             (final_now : datetime) (final_store_ok : bool),
         running d = true ->
         let l := fst (monitor_loop rnd d now0 inputs) in
         let final := save_stats (set_running (daemon l) false)
                        final_now final_store_ok in
         snd (start rnd d now0 inputs final_now final_store_ok)
         = snd (monitor_loop rnd d now0 inputs)
             ++ [Printed StoppingDaemon; ListenerStopped]
             ++ final ++ [Printed DaemonStopped]
         /\ save_calls ([Printed StoppingDaemon; ListenerStopped]
                          ++ final ++ [Printed DaemonStopped])
            = [final_store_ok]
         /\ keystroke_history (fst (start rnd d now0 inputs final_now final_store_ok))
            = keystroke_history (daemon l)).
Proof.
  split; [|split].
  - intros l tk Hmax interval.
    destruct (calculate_fatigue_score_returns rnd (daemon l) (now_score tk) Hmax)
      as [s E].
    destruct (monitor_iteration_save rnd l tk s E) as (S & _ & L).
    fold interval in S, L.
    destruct (save_due rnd interval (last_save_time l) (now_check tk)) eqn:D.
    + left. apply save_due_iff in D. auto.
    + right. split; [|auto]. intros A. apply save_due_iff in A. congruence.
  - intros d now0 inputs Ht. unfold monitor_loop.
    apply (run_snapshots_apart inputs {| daemon := d; last_save_time := now0 |}
             now0 now0 Ht); cbn [last_save_time]; lia.
  - intros d now0 inputs final_now final_store_ok R l final.
    unfold start. subst l final.
    destruct (run_frame rnd inputs {| daemon := d; last_save_time := now0 |})
      as [_ R'].
    unfold monitor_loop in *. cbn [daemon] in R'. rewrite R in R'.
    destruct (run rnd _ inputs) as [l1 e1]. cbn [fst snd] in *. rewrite R'.
    cbn [fst snd]. split; [reflexivity|].
    split; [|reflexivity].
    cbn [app save_calls]. rewrite save_calls_app, save_stats_calls. reflexivity.
Qed.

End Spacing.

(** ** The score *)

Lemma hour_range (t : datetime) : 0 <= hour t < 24.
Proof. unfold hour. apply Z.mod_pos_bound. lia. Qed.

Lemma keystroke_rate_score_range (history : list datetime) :
  0 <= keystroke_rate_score history <= 30.
Proof.
  unfold keystroke_rate_score.
  repeat match goal with
         | |- context [?a <? ?b] => destruct (Z.ltb_spec a b)
         end; lia.
Qed.

Lemma Qltb_lt (x y : Q) : Qltb x y = true <-> (x < y)%Q.
Proof.
  unfold Qltb. rewrite negb_true_iff, <- not_true_iff_false, Qle_bool_iff.
  split; [apply Qnot_le_lt | apply Qlt_not_le].
Qed.

(** [int] of a float between 0 and [n] is between 0 and [n]. *)
Lemma trunc_range (q : Q) (n : Z) :
  (0 <= q)%Q -> (q <= inject_Z n)%Q -> 0 <= trunc q <= n.
Proof.
  destruct q as [a b]. unfold Qle, trunc. cbn [Qnum Qden inject_Z].
  intros H0 Hn. rewrite Z.quot_div_nonneg by lia. split.
  - apply Z.div_pos; lia.
  - apply Z.div_le_upper_bound; lia.
Qed.

Section Score.

Variable rnd : Q -> Q.
Hypothesis rnd_monotone : forall x y : Q, (x <= y)%Q -> (rnd x <= rnd y)%Q.
Hypothesis rnd_small_int :
  forall z : Z, 0 <= z <= 100 -> (rnd (inject_Z z) == inject_Z z)%Q.

(** Rounding does not cross a small integer. *)
Lemma rnd_lower (q : Q) (a : Z) :
  0 <= a <= 100 -> (inject_Z a <= q)%Q -> (inject_Z a <= rnd q)%Q.
Proof.
  intros Ha Hl. rewrite <- (rnd_small_int a Ha). now apply rnd_monotone.
Qed.

Lemma rnd_upper (q : Q) (b : Z) :
  0 <= b <= 100 -> (q <= inject_Z b)%Q -> (rnd q <= inject_Z b)%Q.
Proof.
  intros Hb Hu. rewrite <- (rnd_small_int b Hb). now apply rnd_monotone.
Qed.

(** Factor 2 is defined for a positive [max_session] and lies in [0, 40]. *)
Lemma duration_score_range (sd max : Q) :
  (0 < max)%Q ->
  exists ds, duration_score rnd sd max = Some ds
             /\ (0 <= value ds)%Q /\ (value ds <= inject_Z 40)%Q.
Proof.
  intros Hmax. unfold duration_score.
  destruct (Qltb 1 sd) eqn:Hsd.
  - apply Qltb_lt in Hsd.
    destruct (Qeq_bool max 0) eqn:E.
    { apply Qeq_bool_eq in E. rewrite E in Hmax. now apply Qlt_irrefl in Hmax. }
    eexists. split; [reflexivity|]. unfold py_min. cbn [value].
    destruct (Qltb _ (inject_Z 40)) eqn:Hmin; cbn [value].
    + apply Qltb_lt in Hmin. split; [|now apply Qlt_le_weak].
      unfold fmul, fdiv.
      assert (Hq : (inject_Z 0 <= sd / max)%Q).
      { apply Qle_shift_div_l; [exact Hmax|]. change (inject_Z 0) with 0%Q.
        rewrite Qmult_0_l. apply Qlt_le_weak.
        eapply Qlt_trans; [|exact Hsd]. reflexivity. }
      apply (rnd_lower _ 0) in Hq; [|lia].
      apply (rnd_lower _ 0); [lia|]. change (inject_Z 0) with 0%Q in *.
      apply Qmult_le_0_compat; [exact Hq | discriminate].
    + split; discriminate.
  - eexists. split; [reflexivity|]. cbn [value]. split; discriminate.
Qed.

(** The sum of the three factors, truncated, is between 0 and 100. *)
Lemma total_score_range (ts krs : Z) (ds : number) :
  0 <= ts <= 30 -> 0 <= krs <= 30 ->
  (0 <= value ds)%Q -> (value ds <= inject_Z 40)%Q ->
  0 <= int (total_score rnd ts ds krs) <= 100.
Proof.
  intros Hts Hkrs Hd0 Hd40. unfold total_score.
  destruct ds as [z | q]; cbn [add value int] in *.
  - change 0%Q with (inject_Z 0) in Hd0.
    rewrite <- Zle_Qle in Hd0, Hd40. lia.
  - assert (H1 : (inject_Z 0 <= inject_Z ts + q)%Q).
    { change (inject_Z 0) with (0 + 0)%Q. apply Qplus_le_compat; [|exact Hd0].
      change 0%Q with (inject_Z 0). now rewrite <- Zle_Qle. }
    assert (H2 : (inject_Z ts + q <= inject_Z 70)%Q).
    { change (inject_Z 70) with (inject_Z 30 + inject_Z 40)%Q.
      apply Qplus_le_compat; [|exact Hd40]. now rewrite <- Zle_Qle. }
    apply (rnd_lower _ 0) in H1; [|lia]. apply (rnd_upper _ 70) in H2; [|lia].
    apply trunc_range.
    + apply (rnd_lower _ 0); [lia|]. change (inject_Z 0) with (0 + 0)%Q.
      apply Qplus_le_compat; [exact H1|].
      change 0%Q with (inject_Z 0). now rewrite <- Zle_Qle.
    + apply (rnd_upper _ 100); [lia|].
      change (inject_Z 100) with (inject_Z 70 + inject_Z 30)%Q.
      apply Qplus_le_compat; [exact H2|]. now rewrite <- Zle_Qle.
Qed.

(** C1.  With a bedtime hour in 0..23 and a positive maximal session, at
    every instant and for every window, [calculate_fatigue_score] returns
    [min(100, int(time + duration + rate))]: the three factors are added as
    they are, [int] is applied once to the sum, then the clamp at 100.  The
    time factor is in [0, 30], the duration factor in [0, 40], the rate
    factor in [0, 30], and the score in [0, 100]. *)
Theorem fatigue_score_range (d : Daemon) (now : datetime) :
  0 <= get (bedtime_hour (config d)) 23 <= 23 ->
  (0 < get (max_session_hours (config d)) (4 # 1))%Q ->
  let ts := time_score (get (bedtime_hour (config d)) 23) (hour now) in
  let krs := keystroke_rate_score (keystroke_history d) in
  exists ds : number,
    duration_score rnd (session_duration rnd d now)
      (get (max_session_hours (config d)) (4 # 1)) = Some ds
    /\ 0 <= ts <= 30
    /\ ((0 <= value ds)%Q /\ (value ds <= inject_Z 40)%Q)
    /\ 0 <= krs <= 30
    /\ calculate_fatigue_score rnd d now
       = Some (Z.min 100 (int (add rnd (add rnd (Int ts) ds) (Int krs))))
    /\ 0 <= Z.min 100 (int (add rnd (add rnd (Int ts) ds) (Int krs))) <= 100.
Proof.
  intros Hbed Hmax ts krs.
  destruct (duration_score_range (session_duration rnd d now) _ Hmax)
    as (ds & E & Hd0 & Hd40).
  assert (Hts : 0 <= ts <= 30).
  { subst ts. pose proof (hour_range now). split.
    - apply time_score_lower; lia.
    - apply time_score_upper. }
  pose proof (keystroke_rate_score_range (keystroke_history d)) as Hkrs.
  fold krs in Hkrs.
  pose proof (total_score_range ts krs ds Hts Hkrs Hd0 Hd40) as Ht.
  unfold total_score in Ht.
  exists ds. split; [exact E|]. split; [exact Hts|].
  split; [now split|]. split; [exact Hkrs|]. split; [|lia].
  unfold calculate_fatigue_score. rewrite E. reflexivity.
Qed.

End Score.

Lemma exact_monotone (x y : Q) : (x <= y)%Q -> (exact x <= exact y)%Q.
Proof. exact (fun H => H). Qed.

Lemma exact_small_int (z : Z) :
  0 <= z <= 100 -> (exact (inject_Z z) == inject_Z z)%Q.
Proof. intros _. reflexivity. Qed.

Lemma fatigue_score_range_witness :
  0 <= get (bedtime_hour (config (init default_config (oclock 20) (oclock 20)))) 23
    <= 23
  /\ (0 < get (max_session_hours
                 (config (init default_config (oclock 20) (oclock 20)))) (4 # 1))%Q
  /\ calculate_fatigue_score exact
       (init default_config (oclock 20) (oclock 20)) (oclock 23)
     = Some 55
  /\ 0 <= 55 <= 100.
Proof.
  assert (Hbed : 0 <= get (bedtime_hour
                             (config (init default_config (oclock 20) (oclock 20))))
                        23 <= 23) by (cbn; lia).
  assert (Hmax : (0 < get (max_session_hours
                             (config (init default_config (oclock 20) (oclock 20))))
                          (4 # 1))%Q) by reflexivity.
  split; [exact Hbed|]. split; [exact Hmax|].
  destruct (fatigue_score_range exact exact_monotone exact_small_int
              (init default_config (oclock 20) (oclock 20)) (oclock 23)
              Hbed Hmax) as (ds & E & _ & _ & _ & C & R).
  vm_compute in E. injection E as <-.
  split; [exact C | exact R].
Defined.

Lemma periodic_and_final_save_witness :
  ticking (last_save_time dawn) dawn_inputs
  /\ StronglySorted (apart exact 60)
       (map stats_timestamp
            (snapshots (snd (monitor_loop exact (daemon dawn)
                                          (last_save_time dawn) dawn_inputs)))).
Proof.
  assert (Ht : ticking (last_save_time dawn) dawn_inputs).
  { unfold dawn, dawn_inputs, tick_at, oclock, seconds, timedelta_seconds.
    cbn [ticking between last_save_time now_score now_notify typed now_check
           now_stats now_saved].
    lia. }
  split; [exact Ht|].
  destruct (periodic_and_final_save exact exact_monotone) as (_ & H & _).
  exact (H (daemon dawn) (last_save_time dawn) dawn_inputs Ht).
Defined.

(** ** Sample runs *)

(** A missing field of the configuration counts as its default. *)
Example missing_fields_take_defaults (rnd : Q -> Q) (t0 t1 now : datetime) :
  calculate_fatigue_score rnd (init empty_config t0 t1) now
  = calculate_fatigue_score rnd (init default_config t0 t1) now.
Proof. reflexivity. Qed.

(** At 03:00, five hours into the session, with 95 events in the window:
    28 for the time, 40 for the duration, 0 for the rate. *)
Example score_at_three_in_the_morning :
  calculate_fatigue_score exact
    (type_keys (init default_config (oclock 22) (oclock 22))
               (repeat (oclock 27 - seconds 1) 95))
    (oclock 27)
  = Some 68.
Proof. vm_compute. reflexivity. Qed.

(** Three hours, two minutes and five seconds into the session. *)
Example session_duration_text :
  get_session_duration exact (init default_config (oclock 20) (oclock 20))
    (oclock 23 + seconds 125)
  = "3h 2m"%string.
Proof. vm_compute. reflexivity. Qed.

(** * Further properties of the daemon *)

(** ** The keystroke counter and the window *)

Lemma type_keys_app (d : Daemon) (a b : list datetime) :
  type_keys d (a ++ b) = type_keys (type_keys d a) b.
Proof. unfold type_keys. apply fold_left_app. Qed.

Lemma type_keys_count (times : list datetime) :
  forall d : Daemon,
    keystroke_count (type_keys d times) = keystroke_count d + len times.
Proof.
  unfold type_keys, len.
  induction times as [|t times IH]; intros d; cbn [fold_left List.length].
  - lia.
  - rewrite IH. cbn [on_press keystroke_count]. lia.
Qed.

Lemma len_app {A : Type} (a b : list A) : len (a ++ b) = len a + len b.
Proof. unfold len. rewrite length_app. lia. Qed.

Lemma recent_len (c : datetime) (h : list datetime) : len (recent c h) <= len h.
Proof.
  unfold len, recent. apply Nat2Z.inj_le, filter_length_le.
Qed.

(** The window never holds more events than keys were counted. *)
Lemma on_press_window_le_count (d : Daemon) (t : datetime) :
  len (keystroke_history d) <= keystroke_count d ->
  len (keystroke_history (on_press d t)) <= keystroke_count (on_press d t).
Proof.
  intros H. cbn [on_press keystroke_history keystroke_count].
  pose proof (recent_len
                (t - timedelta_seconds (get (keystroke_window_seconds (config d)) 60))
                (keystroke_history d ++ [t])) as R.
  rewrite len_app in R. change (len [t]) with 1 in R. lia.
Qed.

Lemma type_keys_window_le_count (times : list datetime) :
  forall d : Daemon,
    len (keystroke_history d) <= keystroke_count d ->
    len (keystroke_history (type_keys d times))
    <= keystroke_count (type_keys d times).
Proof.
  unfold type_keys.
  induction times as [|t times IH]; intros d H; cbn [fold_left]; [exact H|].
  apply IH. now apply on_press_window_le_count.
Qed.

(** Two successive prunings amount to the later one when the cutoffs do not
    go back. *)
Lemma recent_recent (c c' : datetime) (h : list datetime) :
  c' <= c -> recent c (recent c' h) = recent c h.
Proof.
  intros Hc. unfold recent. induction h as [|x h IH]; [reflexivity|].
  cbn [filter]. destruct (Z.ltb_spec c' x); cbn [filter];
    destruct (Z.ltb_spec c x); try lia; now rewrite IH.
Qed.

Lemma ascending_snoc (l : list Z) (a : Z) :
  StronglySorted Z.le (l ++ [a]) ->
  StronglySorted Z.le l /\ Forall (fun x => x <= a) l.
Proof.
  induction l as [|x l IH]; cbn [app]; intros H.
  - split; constructor.
  - inversion H as [|? ? Hs Hf]; subst.
    destruct (IH Hs) as [S F]. rewrite Forall_app in Hf. destruct Hf as [Hf Ha].
    inversion Ha; subst. split; constructor; auto.
Qed.

Section Window.

Variable rnd : Q -> Q.

(** X1.  With a nonzero maximal session (so that no iteration is cut short),
    the counter at the end of a run is the counter at its start plus the
    number of key presses delivered: every press is counted once and nothing
    else writes the counter. *)
Theorem keystroke_count_counts_presses (inputs : list Input) :
  forall l : Loop,
    running (daemon l) = true ->
    ~ (get (max_session_hours (config (daemon l))) (4 # 1) == 0)%Q ->
    keystroke_count (daemon (fst (run rnd l inputs)))
    = keystroke_count (daemon l) + len (presses inputs).
Proof.
  induction inputs as [|i rest IH]; intros l R M; cbn [run].
  - cbn [fst presses]. unfold len. cbn [List.length]. lia.
  - rewrite R.
    assert (E : keystroke_count (daemon (fst (step rnd l i)))
                = keystroke_count (daemon l) + len (presses [i])).
    { destruct i as [t | tk]; cbn [step presses].
      - cbn [fst daemon on_press keystroke_count]. reflexivity.
      - rewrite app_nil_r. unfold monitor_iteration.
        destruct (calculate_fatigue_score_returns rnd (daemon l) (now_score tk) M)
          as [s ->].
        destruct (check_notifications_frame rnd
                    (set_fatigue_score (daemon l) s) s tk) as [level F].
        destruct (check_notifications rnd _ s tk) as [d2 alerts].
        cbn [fst] in F. subst d2.
        destruct (save_periodically rnd _ (last_save_time l) tk) as [sa sv].
        cbn [fst daemon]. rewrite type_keys_count. reflexivity. }
    destruct (step_frame rnd l i) as [C1 R1].
    destruct (step rnd l i) as [l1 e1]. cbn [fst] in E, C1, R1.
    specialize (IH l1). rewrite R1, C1 in IH. specialize (IH R M).
    destruct (run rnd l1 rest) as [l2 e2]. cbn [fst] in IH |- *.
    rewrite IH, E, (presses_cons i rest), len_app. lia.
Qed.

(** X2.  After key presses at instants that do not go back, the window is
    what the last press alone would keep of everything seen: the events of
    the old window and of all the presses that are newer than the last
    instant minus the window length, in their order. *)
Theorem window_after_presses (d : Daemon) (times : list datetime) (t : datetime) :
  StronglySorted Z.le (times ++ [t]) ->
  keystroke_history (type_keys d (times ++ [t]))
  = recent (t - timedelta_seconds (get (keystroke_window_seconds (config d)) 60))
           (keystroke_history d ++ times ++ [t]).
Proof.
  revert t. induction times as [|t' times IH] using rev_ind; intros t S.
  - reflexivity.
  - apply ascending_snoc in S. destruct S as [S F].
    rewrite type_keys_app. specialize (IH t' S).
    unfold type_keys at 1. cbn [fold_left].
    cbn [on_press keystroke_history]. rewrite IH.
    destruct (type_keys_frame (times ++ [t']) d) as (-> & _).
    rewrite (app_assoc (keystroke_history d) (times ++ [t']) [t]).
    rewrite !(recent_app _ _ [t]), recent_recent; [reflexivity|].
    rewrite Forall_app in F. destruct F as [_ F]. inversion F; subst.
    unfold timedelta_seconds. lia.
Qed.

End Window.

Lemma keystroke_count_counts_presses_witness :
  running (daemon dawn) = true
  /\ ~ (get (max_session_hours (config (daemon dawn))) (4 # 1) == 0)%Q
  /\ keystroke_count
       (daemon (fst (run exact dawn
                         (KeyPress (oclock 5 + seconds 2000) :: dawn_inputs))))
     = 1.
Proof.
  assert (R : running (daemon dawn) = true) by reflexivity.
  assert (M : ~ (get (max_session_hours (config (daemon dawn))) (4 # 1) == 0)%Q)
    by discriminate.
  split; [exact R|]. split; [exact M|].
  exact (keystroke_count_counts_presses exact
           (KeyPress (oclock 5 + seconds 2000) :: dawn_inputs) dawn R M).
Defined.

Lemma window_after_presses_witness :
  StronglySorted Z.le ([seconds 1; seconds 30] ++ [seconds 70])
  /\ keystroke_history
       (type_keys (init default_config 0 0)
                  ([seconds 1; seconds 30] ++ [seconds 70]))
     = [seconds 30; seconds 70].
Proof.
  assert (S : StronglySorted Z.le ([seconds 1; seconds 30] ++ [seconds 70]))
    by (repeat constructor; unfold seconds, timedelta_seconds; lia).
  split; [exact S|].
  exact (window_after_presses (init default_config 0 0)
           [seconds 1; seconds 30] (seconds 70) S).
Defined.

(** ** Invariants of a run *)

Section Invariant.

Variable rnd : Q -> Q.

(** A property [P] of the object that every writer keeps, and a property [S]
    that the snapshot of such an object has. *)
Variable P : Daemon -> Prop.
Variable S : Stats -> Prop.

Hypothesis P_press : forall d t, P d -> P (on_press d t).
Hypothesis P_score :
  forall d now s,
    P d -> calculate_fatigue_score rnd d now = Some s -> P (set_fatigue_score d s).
Hypothesis P_gate :
  forall d s tk, P d -> P (fst (check_notifications rnd d s tk)).
Hypothesis P_stats :
  forall d now ok, P d -> Forall S (snapshots (save_stats d now ok)).

Lemma type_keys_invariant (times : list datetime) :
  forall d, P d -> P (type_keys d times).
Proof.
  unfold type_keys. induction times as [|t times IH]; intros d H; [exact H|].
  cbn [fold_left]. apply IH. now apply P_press.
Qed.

Lemma monitor_iteration_invariant (l : Loop) (tk : Tick) :
  P (daemon l) ->
  P (daemon (fst (monitor_iteration rnd l tk)))
  /\ Forall S (snapshots (snd (monitor_iteration rnd l tk))).
Proof.
  intros H. unfold monitor_iteration.
  destruct (calculate_fatigue_score rnd (daemon l) (now_score tk)) as [s|] eqn:E;
    [|split; [now apply type_keys_invariant | constructor]].
  pose proof (P_score _ _ _ H E) as H1.
  pose proof (P_gate _ s tk H1) as H2.
  destruct (check_notifications_saves rnd (set_fatigue_score (daemon l) s) s tk)
    as [_ N].
  destruct (check_notifications rnd _ s tk) as [d2 alerts]. cbn [fst snd] in *.
  pose proof (type_keys_invariant (typed tk) d2 H2) as H3.
  unfold save_periodically.
  destruct (save_due rnd _ (last_save_time l) (now_check tk)); cbn [fst snd daemon];
    rewrite snapshots_app, N; cbn [app]; split; auto.
Qed.

Lemma run_invariant (inputs : list Input) :
  forall l : Loop,
    P (daemon l) ->
    P (daemon (fst (run rnd l inputs)))
    /\ Forall S (snapshots (snd (run rnd l inputs))).
Proof.
  induction inputs as [|i rest IH]; intros l H; cbn [run].
  - split; [exact H | constructor].
  - destruct (running (daemon l)); [|split; [exact H | constructor]].
    assert (H1 : P (daemon (fst (step rnd l i)))
                 /\ Forall S (snapshots (snd (step rnd l i)))).
    { destruct i as [t | tk]; cbn [step].
      - split; [now apply P_press | constructor].
      - now apply monitor_iteration_invariant. }
    destruct (step rnd l i) as [l1 e1]. cbn [fst snd] in H1.
    destruct H1 as [H1 F1]. destruct (IH l1 H1) as [H2 F2].
    destruct (run rnd l1 rest) as [l2 e2]. cbn [fst snd] in *.
    rewrite snapshots_app. split; [exact H2|]. apply Forall_app. now split.
Qed.

Hypothesis P_stop : forall d, P d -> P (set_running d false).

Lemma start_invariant (d : Daemon) (now0 : datetime) (inputs : list Input)
  (final_now : datetime) (final_store_ok : bool) :
  P d ->
  P (fst (start rnd d now0 inputs final_now final_store_ok))
  /\ Forall S (snapshots (snd (start rnd d now0 inputs final_now final_store_ok))).
Proof.
  intros H. unfold start, monitor_loop.
  destruct (run_invariant inputs {| daemon := d; last_save_time := now0 |} H)
    as [H1 F1].
  destruct (run rnd _ inputs) as [l events]. cbn [fst snd] in *.
  destruct (running (daemon l)); cbn [fst snd]; [|now split].
  split; [now apply P_stop|].
  rewrite !snapshots_app. apply Forall_app. split; [exact F1|].
  cbn [app snapshots]. apply Forall_app. split; [|constructor].
  apply P_stats. now apply P_stop.
Qed.

End Invariant.

(** X3.  From an object whose window holds no more events than its counter
    has counted (as at the start of a session), every snapshot the daemon
    writes, periodic or final, reports a rate between 0 and the total number
    of keystrokes, and the object still has the property when the daemon
    stops. *)
Theorem snapshot_rate_within_total (rnd : Q -> Q) (d : Daemon) (now0 : datetime)
  (inputs : list Input) (final_now : datetime) (final_store_ok : bool) :
  len (keystroke_history d) <= keystroke_count d ->
  let r := start rnd d now0 inputs final_now final_store_ok in
  len (keystroke_history (fst r)) <= keystroke_count (fst r)
  /\ Forall (fun s => 0 <= stats_current_keystroke_rate s
                      <= stats_total_keystrokes s)
            (snapshots (snd r)).
Proof.
  intros H.
  apply (start_invariant rnd
           (fun d => len (keystroke_history d) <= keystroke_count d)
           (fun s => 0 <= stats_current_keystroke_rate s
                     <= stats_total_keystrokes s)); auto.
  - apply on_press_window_le_count.
  - intros d0 s tk H0.
    destruct (check_notifications_frame rnd d0 s tk) as [level ->]. exact H0.
  - intros d0 now ok H0. unfold save_stats.
    destruct ok; cbn [snapshots]; repeat constructor;
      cbn [stats_current_keystroke_rate stats_total_keystrokes];
      rewrite get_keystroke_rate_len; [apply len_nonneg | exact H0].
Qed.

Lemma snapshot_rate_within_total_witness :
  len (keystroke_history (daemon dawn)) <= keystroke_count (daemon dawn)
  /\ Forall (fun s => 0 <= stats_current_keystroke_rate s
                      <= stats_total_keystrokes s)
            (snapshots (snd (start exact (daemon dawn) (last_save_time dawn)
                                   dawn_inputs (oclock 7) true))).
Proof.
  assert (H : len (keystroke_history (daemon dawn)) <= keystroke_count (daemon dawn))
    by (cbn; lia).
  split; [exact H|].
  exact (proj2 (snapshot_rate_within_total exact (daemon dawn)
                  (last_save_time dawn) dawn_inputs (oclock 7) true H)).
Defined.

(** ** More on the score *)

Lemma Qltb_false (x y : Q) : Qltb x y = false <-> (y <= x)%Q.
Proof. unfold Qltb. rewrite negb_false_iff. apply Qle_bool_iff. Qed.

Lemma inject_Z_le (a b : Z) : a <= b -> (inject_Z a <= inject_Z b)%Q.
Proof. intros H. now rewrite <- Zle_Qle. Qed.

Lemma trunc_upper (q : Q) (n : Z) :
  0 <= n -> (q <= inject_Z n)%Q -> trunc q <= n.
Proof.
  intros Hn Hq. destruct (Qlt_le_dec q 0) as [Hneg | Hpos].
  - destruct q as [a b]. unfold Qlt, trunc in *. cbn [Qnum Qden] in *.
    assert (a < 0) by lia.
    pose proof (Z.quot_opp_l a (Z.pos b) ltac:(lia)) as E.
    pose proof (Z.quot_pos (- a) (Z.pos b) ltac:(lia) ltac:(lia)). lia.
  - now apply trunc_range.
Qed.

Section ScoreBounds.

Variable rnd : Q -> Q.
Hypothesis rnd_monotone : forall x y : Q, (x <= y)%Q -> (rnd x <= rnd y)%Q.
Hypothesis rnd_small_int :
  forall z : Z, 0 <= z <= 100 -> (rnd (inject_Z z) == inject_Z z)%Q.

(** The truncated sum is at most the sum of three integer bounds of the
    factors. *)
Lemma total_score_upper (ts krs : Z) (ds : number) (a b c : Z) :
  0 <= a -> 0 <= b -> 0 <= c -> a + b + c <= 100 ->
  ts <= a -> krs <= c -> (value ds <= inject_Z b)%Q ->
  int (total_score rnd ts ds krs) <= a + b + c.
Proof.
  intros Ha Hb Hc Hsum Hts Hkrs Hds. unfold total_score.
  destruct ds as [z | q]; cbn [add value int] in *.
  - rewrite <- Zle_Qle in Hds. lia.
  - apply trunc_upper; [lia|].
    apply (rnd_upper rnd rnd_monotone rnd_small_int); [lia|].
    rewrite !inject_Z_plus. apply Qplus_le_compat; [|now apply inject_Z_le].
    rewrite <- inject_Z_plus.
    apply (rnd_upper rnd rnd_monotone rnd_small_int); [lia|].
    rewrite inject_Z_plus. apply Qplus_le_compat; [now apply inject_Z_le | exact Hds].
Qed.

(** The shape of factor 2: nothing up to one hour, then the clamp of a
    nonnegative float. *)
Lemma duration_score_cases (sd max : Q) (ds : number) :
  duration_score rnd sd max = Some ds ->
  (Qltb 1 sd = false /\ ds = Int 0)
  \/ (Qltb 1 sd = true
      /\ (ds = Int 40 \/ exists q, ds = Float q /\ (q < inject_Z 40)%Q)).
Proof.
  unfold duration_score. destruct (Qltb 1 sd); [|intros [= <-]; now left].
  destruct (Qeq_bool max 0); [discriminate|]. intros [= <-]. right.
  split; [reflexivity|]. unfold py_min. cbn [value].
  destruct (Qltb _ (inject_Z 40)) eqn:E; [right | now left].
  eexists. split; [reflexivity|]. now apply Qltb_lt.
Qed.

Lemma calculate_fatigue_score_bounds (d : Daemon) (now : datetime) (s : Z) :
  0 <= get (bedtime_hour (config d)) 23 <= 23 ->
  (0 < get (max_session_hours (config d)) (4 # 1))%Q ->
  calculate_fatigue_score rnd d now = Some s ->
  0 <= s <= 100.
Proof.
  intros Hbed Hmax. unfold calculate_fatigue_score.
  destruct (duration_score_range rnd rnd_monotone rnd_small_int
              (session_duration rnd d now) _ Hmax) as (ds & -> & Hd0 & Hd40).
  intros [= <-]. pose proof (hour_range now).
  pose proof (total_score_range rnd rnd_monotone rnd_small_int
                (time_score (get (bedtime_hour (config d)) 23) (hour now))
                (keystroke_rate_score (keystroke_history d)) ds) as T.
  pose proof (time_score_upper (get (bedtime_hour (config d)) 23) (hour now)).
  pose proof (time_score_lower (get (bedtime_hour (config d)) 23) (hour now)
                ltac:(lia) ltac:(lia)).
  pose proof (keystroke_rate_score_range (keystroke_history d)).
  specialize (T ltac:(lia) ltac:(lia) Hd0 Hd40). lia.
Qed.

(** X4.  With a bedtime hour in 0..23 and a positive maximal session, from
    an object whose score is in [0, 100] (as at the start of a session),
    the score the daemon holds when it stops and the score of every snapshot
    it has written are in [0, 100]. *)
Theorem fatigue_score_stays_in_range (d : Daemon) (now0 : datetime)
  (inputs : list Input) (final_now : datetime) (final_store_ok : bool) :
  0 <= get (bedtime_hour (config d)) 23 <= 23 ->
  (0 < get (max_session_hours (config d)) (4 # 1))%Q ->
  0 <= fatigue_score d <= 100 ->
  let r := start rnd d now0 inputs final_now final_store_ok in
  0 <= fatigue_score (fst r) <= 100
  /\ Forall (fun s => 0 <= stats_fatigue_score s <= 100) (snapshots (snd r)).
Proof.
  intros Hbed Hmax Hf r.
  pose (P := fun d0 : Daemon =>
               config d0 = config d /\ 0 <= fatigue_score d0 <= 100).
  destruct (start_invariant rnd P
              (fun s => 0 <= stats_fatigue_score s <= 100))
    with (d := d) (now0 := now0) (inputs := inputs) (final_now := final_now)
         (final_store_ok := final_store_ok) as [[_ H1] H2].
  - intros d0 t [C F]. split; [exact C | exact F].
  - intros d0 now s [C F] E. split; [exact C|].
    cbn [set_fatigue_score fatigue_score].
    apply (calculate_fatigue_score_bounds d0 now s); rewrite ?C; auto.
  - intros d0 s tk [C F].
    destruct (check_notifications_frame rnd d0 s tk) as [level ->].
    split; [exact C | exact F].
  - intros d0 now ok [C F]. unfold save_stats.
    destruct ok; cbn [snapshots]; repeat constructor;
      cbn [stats_fatigue_score]; lia.
  - intros d0 [C F]. split; [exact C | exact F].
  - split; [reflexivity | exact Hf].
  - split; [exact H1 | exact H2].
Qed.

(** X5.  A score of 90 or more, the threshold of the critical alert, is
    only computed in the late-night band at least three hours past bedtime,
    more than one hour into the session, and with fewer than 60 events in
    the window. *)
Theorem critical_score_needs_all_factors (d : Daemon) (now : datetime) (s : Z) :
  calculate_fatigue_score rnd d now = Some s ->
  90 <= s ->
  late_night (get (bedtime_hour (config d)) 23) (hour now) = true
  /\ 3 <= hours_past_bedtime (get (bedtime_hour (config d)) 23) (hour now)
  /\ Qltb 1 (session_duration rnd d now) = true
  /\ len (keystroke_history d) < 60.
Proof.
  unfold calculate_fatigue_score.
  destruct (duration_score rnd (session_duration rnd d now) _) as [ds|] eqn:E;
    [|discriminate].
  intros [= <-] Hs.
  set (ts := time_score (get (bedtime_hour (config d)) 23) (hour now)) in *.
  set (krs := keystroke_rate_score (keystroke_history d)) in *.
  pose proof (time_score_upper (get (bedtime_hour (config d)) 23) (hour now))
    as Hts. fold ts in Hts.
  pose proof (keystroke_rate_score_range (keystroke_history d)) as Hkrs.
  fold krs in Hkrs.
  assert (Hds : (value ds <= inject_Z 40)%Q /\ (Qltb 1 (session_duration rnd d now) = false -> ds = Int 0)).
  { destruct (duration_score_cases _ _ _ E) as [[G ->] | [G [-> | (q & -> & Hq)]]];
      cbn [value]; split; auto; try discriminate; try congruence. }
  destruct Hds as [Hd40 Hgrace].
  assert (T : 20 <= ts /\ 20 <= krs /\ Qltb 1 (session_duration rnd d now) = true).
  { repeat split.
    - destruct (Z.le_gt_cases 20 ts) as [|Hlt]; [assumption|]. exfalso.
      pose proof (total_score_upper ts krs ds 19 40 30) as U.
      specialize (U ltac:(lia) ltac:(lia) ltac:(lia) ltac:(lia) ltac:(lia)
                    ltac:(lia) Hd40). lia.
    - destruct (Z.le_gt_cases 20 krs) as [|Hlt]; [assumption|]. exfalso.
      pose proof (total_score_upper ts krs ds 30 40 19) as U.
      specialize (U ltac:(lia) ltac:(lia) ltac:(lia) ltac:(lia) ltac:(lia)
                    ltac:(lia) Hd40). lia.
    - destruct (Qltb 1 (session_duration rnd d now)); [reflexivity|]. exfalso.
      rewrite (Hgrace eq_refl) in Hs. unfold total_score in Hs.
      cbn [add int] in Hs. lia. }
  destruct T as (T1 & T2 & T3).
  assert (L : late_night (get (bedtime_hour (config d)) 23) (hour now) = true).
  { subst ts. unfold time_score in T1.
    destruct (late_night _ _); [reflexivity | lia]. }
  split; [exact L|]. split; [|split; [exact T3|]].
  - subst ts. rewrite (time_score_late _ _ L) in T1. lia.
  - subst krs. unfold keystroke_rate_score in T2.
    repeat match type of T2 with
           | context [?a <? ?b] => destruct (Z.ltb_spec a b); try lia
           end.
Qed.

End ScoreBounds.

Lemma fatigue_score_stays_in_range_witness :
  0 <= get (bedtime_hour (config (daemon dawn))) 23 <= 23
  /\ (0 < get (max_session_hours (config (daemon dawn))) (4 # 1))%Q
  /\ 0 <= fatigue_score (daemon dawn) <= 100
  /\ Forall (fun s => 0 <= stats_fatigue_score s <= 100)
        (snapshots (snd (start exact (daemon dawn) (last_save_time dawn)
                               dawn_inputs (oclock 7) true))).
Proof.
  assert (Hbed : 0 <= get (bedtime_hour (config (daemon dawn))) 23 <= 23)
    by (cbn; lia).
  assert (Hmax : (0 < get (max_session_hours (config (daemon dawn))) (4 # 1))%Q)
    by reflexivity.
  assert (Hf : 0 <= fatigue_score (daemon dawn) <= 100) by (cbn; lia).
  split; [exact Hbed|]. split; [exact Hmax|]. split; [exact Hf|].
  exact (proj2 (fatigue_score_stays_in_range exact exact_monotone exact_small_int
                  (daemon dawn) (last_save_time dawn) dawn_inputs (oclock 7) true
                  Hbed Hmax Hf)).
Defined.

(** A session that started at 22:00, one key pressed just before 03:00. *)
Lemma critical_score_needs_all_factors_witness :
  calculate_fatigue_score exact
    (on_press (init default_config (oclock 22) (oclock 22)) (oclock 27 - seconds 1))
    (oclock 27) = Some 98
  /\ 90 <= 98
  /\ late_night 23 (hour (oclock 27)) = true
  /\ 3 <= hours_past_bedtime 23 (hour (oclock 27)).
Proof.
  assert (E : calculate_fatigue_score exact
                (on_press (init default_config (oclock 22) (oclock 22))
                          (oclock 27 - seconds 1))
                (oclock 27) = Some 98) by (vm_compute; reflexivity).
  assert (H : 90 <= 98) by lia.
  split; [exact E|]. split; [exact H|].
  destruct (critical_score_needs_all_factors exact exact_monotone exact_small_int
              _ _ _ E H) as (L & P & _).
  split; [exact L | exact P].
Defined.

Section DurationScore.

Variable rnd : Q -> Q.
Hypothesis rnd_monotone : forall x y : Q, (x <= y)%Q -> (rnd x <= rnd y)%Q.
Hypothesis rnd_small_int :
  forall z : Z, 0 <= z <= 100 -> (rnd (inject_Z z) == inject_Z z)%Q.

Lemma py_min_40_monotone (x y : Q) :
  (x <= y)%Q ->
  (value (py_min (Int 40) (Float x)) <= value (py_min (Int 40) (Float y)))%Q.
Proof.
  intros H. unfold py_min. cbn [value].
  destruct (Qltb x (inject_Z 40)) eqn:Ex, (Qltb y (inject_Z 40)) eqn:Ey;
    cbn [value].
  - exact H.
  - apply Qltb_lt in Ex. now apply Qlt_le_weak.
  - apply Qltb_false in Ex. apply Qltb_lt in Ey. exfalso.
    apply (Qlt_not_le _ _ Ey). eapply Qle_trans; eauto.
  - apply Qle_refl.
Qed.

Lemma scaled_monotone (max sd1 sd2 : Q) :
  (0 < max)%Q -> (sd1 <= sd2)%Q ->
  (fmul rnd (fdiv rnd sd1 max) 40 <= fmul rnd (fdiv rnd sd2 max) 40)%Q.
Proof.
  intros Hmax Hsd. unfold fmul, fdiv. apply rnd_monotone.
  apply Qmult_le_compat_r; [|discriminate]. apply rnd_monotone.
  unfold Qdiv. apply Qmult_le_compat_r; [exact Hsd|].
  apply Qlt_le_weak. now apply Qinv_lt_0_compat.
Qed.

(** X6.  For a positive maximal session the duration factor is defined, is
    0 up to one hour of session, does not decrease when the session grows,
    and is exactly 40 once the session is over one hour and at least the
    maximal session long. *)
Theorem duration_score_grows (max sd1 sd2 : Q) :
  (0 < max)%Q -> (sd1 <= sd2)%Q ->
  exists ds1 ds2,
    duration_score rnd sd1 max = Some ds1
    /\ duration_score rnd sd2 max = Some ds2
    /\ (value ds1 <= value ds2)%Q
    /\ ((sd1 <= 1)%Q -> ds1 = Int 0)
    /\ ((1 < sd2)%Q -> (max <= sd2)%Q -> ds2 = Int 40).
Proof.
  intros Hmax Hsd.
  destruct (duration_score_range rnd rnd_monotone rnd_small_int sd1 max Hmax)
    as (ds1 & E1 & L1 & U1).
  destruct (duration_score_range rnd rnd_monotone rnd_small_int sd2 max Hmax)
    as (ds2 & E2 & L2 & U2).
  exists ds1, ds2. split; [exact E1|]. split; [exact E2|].
  assert (Hne : Qeq_bool max 0 = false).
  { destruct (Qeq_bool max 0) eqn:E; [|reflexivity].
    apply Qeq_bool_eq in E. rewrite E in Hmax. now apply Qlt_irrefl in Hmax. }
  unfold duration_score in E1, E2. rewrite Hne in E1, E2.
  split; [|split].
  - destruct (Qltb 1 sd1) eqn:G1.
    + apply Qltb_lt in G1.
      assert (G2 : Qltb 1 sd2 = true)
        by (apply Qltb_lt; eapply Qlt_le_trans; eauto).
      rewrite G2 in E2. injection E1 as <-. injection E2 as <-.
      apply py_min_40_monotone. now apply scaled_monotone.
    + injection E1 as <-. exact L2.
  - intros H1. destruct (Qltb 1 sd1) eqn:G1; [|now injection E1 as <-].
    apply Qltb_lt in G1. exfalso. apply (Qlt_not_le _ _ G1 H1).
  - intros H1 H2. apply Qltb_lt in H1. rewrite H1 in E2. injection E2 as <-.
    unfold py_min. cbn [value].
    assert (G : Qltb (fmul rnd (fdiv rnd sd2 max) 40) (inject_Z 40) = false);
      [|now rewrite G].
    apply Qltb_false. unfold fmul, fdiv.
    apply (rnd_lower rnd rnd_monotone rnd_small_int); [lia|].
    change (inject_Z 40) with (inject_Z 1 * 40)%Q.
    apply Qmult_le_compat_r; [|discriminate].
    apply (rnd_lower rnd rnd_monotone rnd_small_int); [lia|].
    apply Qle_shift_div_l; [exact Hmax|].
    change (inject_Z 1) with 1%Q. now rewrite Qmult_1_l.
Qed.

End DurationScore.

Lemma duration_score_grows_witness :
  (0 < 4)%Q /\ (2 <= 5)%Q
  /\ exists ds1 ds2,
       duration_score exact 2 4 = Some ds1
       /\ duration_score exact 5 4 = Some ds2
       /\ (value ds1 <= value ds2)%Q
       /\ ds2 = Int 40.
Proof.
  assert (Hmax : (0 < 4)%Q) by reflexivity.
  assert (Hsd : (2 <= 5)%Q) by discriminate.
  split; [exact Hmax|]. split; [exact Hsd|].
  destruct (duration_score_grows exact exact_monotone exact_small_int 4 2 5
              Hmax Hsd) as (ds1 & ds2 & E1 & E2 & Hle & _ & Hsat).
  exists ds1, ds2. split; [exact E1|]. split; [exact E2|]. split; [exact Hle|].
  apply Hsat; [reflexivity | discriminate].
Defined.

(** ** The first hour, and a zero maximal session *)

Section FirstHour.

Variable rnd : Q -> Q.
Hypothesis rnd_monotone : forall x y : Q, (x <= y)%Q -> (rnd x <= rnd y)%Q.
Hypothesis rnd_hour_int :
  forall z : Z, 0 <= z <= 3600 -> (rnd (inject_Z z) == inject_Z z)%Q.

Lemma session_duration_first_hour (d : Daemon) (now : datetime) :
  now - session_start d <= 3600000000 ->
  Qltb 1 (session_duration rnd d now) = false.
Proof.
  intros H. apply Qltb_false. unfold session_duration, fdiv, total_seconds.
  change 1%Q with (inject_Z 1). rewrite <- (rnd_hour_int 1) by lia.
  apply rnd_monotone. apply Qle_shift_div_r; [reflexivity|].
  change (inject_Z 1 * 3600)%Q with (inject_Z 3600).
  rewrite <- (rnd_hour_int 3600) by lia. apply rnd_monotone.
  apply Qle_shift_div_r; [reflexivity|].
  change (inject_Z 3600 * 1000000)%Q with (inject_Z 3600000000).
  now apply inject_Z_le.
Qed.

(** X7.  In the first hour of a session the score is the time factor plus
    the rate factor, whatever the maximal session (a zero one included: the
    division is not reached), so it is at most 60; for a window still empty
    it is the time factor plus 25. *)
Theorem first_hour_score (d : Daemon) (now : datetime) :
  now - session_start d <= 3600000000 ->
  calculate_fatigue_score rnd d now
  = Some (time_score (get (bedtime_hour (config d)) 23) (hour now)
          + keystroke_rate_score (keystroke_history d))
  /\ time_score (get (bedtime_hour (config d)) 23) (hour now)
     + keystroke_rate_score (keystroke_history d) <= 60
  /\ (keystroke_history d = [] ->
      calculate_fatigue_score rnd d now
      = Some (time_score (get (bedtime_hour (config d)) 23) (hour now) + 25)).
Proof.
  intros H. pose proof (session_duration_first_hour d now H) as G.
  pose proof (time_score_upper (get (bedtime_hour (config d)) 23) (hour now)).
  pose proof (keystroke_rate_score_range (keystroke_history d)).
  assert (E : calculate_fatigue_score rnd d now
              = Some (time_score (get (bedtime_hour (config d)) 23) (hour now)
                      + keystroke_rate_score (keystroke_history d))).
  { unfold calculate_fatigue_score, duration_score. rewrite G.
    unfold total_score. cbn [add int]. f_equal. lia. }
  split; [exact E|]. split; [lia|].
  intros Hnil. rewrite E, Hnil. reflexivity.
Qed.

End FirstHour.

Lemma exact_hour_int (z : Z) :
  0 <= z <= 3600 -> (exact (inject_Z z) == inject_Z z)%Q.
Proof. intros _. reflexivity. Qed.

Lemma first_hour_score_witness :
  oclock 1 - session_start (init default_config (oclock 1) (oclock 1))
  <= 3600000000
  /\ calculate_fatigue_score exact (init default_config (oclock 1) (oclock 1))
       (oclock 1)
     = Some 39.
Proof.
  assert (H : oclock 1 - session_start (init default_config (oclock 1) (oclock 1))
              <= 3600000000) by (cbn; lia).
  split; [exact H|].
  exact (proj1 (first_hour_score exact exact_monotone exact_hour_int
                  (init default_config (oclock 1) (oclock 1)) (oclock 1) H)).
Defined.

Section ZeroMaxSession.

Variable rnd : Q -> Q.

Lemma past_first_hour_same_start (d d' : Daemon) (i : Input) :
  session_start d' = session_start d ->
  past_first_hour rnd d i -> past_first_hour rnd d' i.
Proof.
  intros E. destruct i as [t | tk]; cbn [past_first_hour]; [auto|].
  unfold session_duration. now rewrite E.
Qed.

Lemma calculate_fatigue_score_raises (d : Daemon) (now : datetime) :
  (get (max_session_hours (config d)) (4 # 1) == 0)%Q ->
  Qltb 1 (session_duration rnd d now) = true ->
  calculate_fatigue_score rnd d now = None.
Proof.
  intros Hmax Hsd. unfold calculate_fatigue_score, duration_score.
  rewrite Hsd. now rewrite (Qeq_eq_bool _ _ Hmax).
Qed.

Lemma run_zero_max_session (inputs : list Input) :
  forall l : Loop,
    (get (max_session_hours (config (daemon l))) (4 # 1) == 0)%Q ->
    Forall (past_first_hour rnd (daemon l)) inputs ->
    Forall (eq (Printed ErrorInMonitorLoop)) (snd (run rnd l inputs))
    /\ fatigue_score (daemon (fst (run rnd l inputs))) = fatigue_score (daemon l)
    /\ last_notification_level (daemon (fst (run rnd l inputs)))
       = last_notification_level (daemon l)
    /\ last_save_time (fst (run rnd l inputs)) = last_save_time l
    /\ running (daemon (fst (run rnd l inputs))) = running (daemon l).
Proof.
  induction inputs as [|i rest IH]; intros l Hmax Hall; cbn [run].
  - cbn [fst snd]. repeat split. constructor.
  - destruct (running (daemon l)) eqn:R; [|cbn [fst snd]; repeat split; auto].
    inversion Hall as [|? ? Hi Hrest]; subst.
    destruct i as [t | tk]; cbn [step].
    + specialize (IH {| daemon := on_press (daemon l) t;
                        last_save_time := last_save_time l |}).
      cbn [daemon last_save_time] in IH.
      destruct IH as (F & E1 & E2 & E3 & E4); [exact Hmax | |].
      { eapply Forall_impl; [|exact Hrest]. intros i.
        now apply past_first_hour_same_start. }
      destruct (run rnd _ rest) as [l2 e2]. cbn [fst snd app] in *.
      repeat split; auto. exact (eq_trans E4 R).
    + cbn [past_first_hour] in Hi. unfold monitor_iteration.
      rewrite (calculate_fatigue_score_raises _ _ Hmax Hi).
      destruct (type_keys_frame (typed tk) (daemon l)) as (C & K1 & K2 & K3 & K4).
      specialize (IH {| daemon := type_keys (daemon l) (typed tk);
                        last_save_time := last_save_time l |}).
      cbn [daemon last_save_time] in IH. rewrite C, K1, K2, K3 in IH.
      destruct IH as (F & E1 & E2 & E3 & E4); [exact Hmax | |].
      { eapply Forall_impl; [|exact Hrest]. intros i.
        now apply past_first_hour_same_start. }
      destruct (run rnd _ rest) as [l2 e2]. cbn [fst snd app] in *.
      repeat split; auto. exact (eq_trans E4 R).
Qed.

(** X8.  With a maximal session of 0, every iteration after the first hour
    of the session stops at the division and only prints the loop's error
    line: over such a run no alert fires, nothing is notified, the score and
    the alert level stay as they were, and the only call of [save_stats] is
    the final one at the interrupt. *)
Theorem zero_max_session_stalls (d : Daemon) (now0 : datetime)
  (inputs : list Input) (final_now : datetime) (final_store_ok : bool) :
  (get (max_session_hours (config d)) (4 # 1) == 0)%Q ->
  running d = true ->
  Forall (past_first_hour rnd d) inputs ->
  let r := start rnd d now0 inputs final_now final_store_ok in
  fired_levels (snd r) = []
  /\ notifications (snd r) = []
  /\ save_calls (snd r) = [final_store_ok]
  /\ fatigue_score (fst r) = fatigue_score d
  /\ last_notification_level (fst r) = last_notification_level d.
Proof.
  intros Hmax R Hall. unfold start, monitor_loop.
  destruct (run_zero_max_session inputs {| daemon := d; last_save_time := now0 |}
              Hmax Hall) as (F & E1 & E2 & _ & E4).
  destruct (run rnd _ inputs) as [l events]. cbn [fst snd daemon] in *.
  rewrite E4, R. cbn [fst snd].
  assert (Q1 : fired_levels events = [] /\ notifications events = []
               /\ save_calls events = []).
  { clear - F. induction F as [|e events <- _ IH]; [now repeat split|].
    cbn [fired_levels notifications save_calls]. exact IH. }
  destruct Q1 as (Q1 & Q2 & Q3).
  rewrite fired_levels_app, notifications_app, save_calls_app, Q1, Q2, Q3.
  cbn [app fired_levels notifications save_calls].
  rewrite fired_levels_app, notifications_app, save_calls_app, save_stats_calls.
  pose proof (save_stats_quiet (set_running l.(daemon) false) final_now
                final_store_ok) as Hq.
  rewrite (quiet_fired_levels _ Hq).
  assert (N : notifications (save_stats (set_running (daemon l) false) final_now
                               final_store_ok) = [])
    by (unfold save_stats; now destruct final_store_ok).
  rewrite N. cbn. repeat split; auto.
Qed.

End ZeroMaxSession.

Lemma zero_max_session_stalls_witness :
  (get (max_session_hours (config (init zero_max_config (oclock 12) (oclock 12))))
       (4 # 1) == 0)%Q
  /\ running (init zero_max_config (oclock 12) (oclock 12)) = true
  /\ Forall (past_first_hour exact (init zero_max_config (oclock 12) (oclock 12)))
        [Wake (tick_at (oclock 14)); Wake (tick_at (oclock 15))]
  /\ save_calls
       (snd (start exact (init zero_max_config (oclock 12) (oclock 12))
                   (oclock 12)
                   [Wake (tick_at (oclock 14)); Wake (tick_at (oclock 15))]
                   (oclock 16) true))
     = [true].
Proof.
  assert (Hmax : (get (max_session_hours
                         (config (init zero_max_config (oclock 12) (oclock 12))))
                      (4 # 1) == 0)%Q) by reflexivity.
  assert (R : running (init zero_max_config (oclock 12) (oclock 12)) = true)
    by reflexivity.
  assert (Hall : Forall (past_first_hour exact
                           (init zero_max_config (oclock 12) (oclock 12)))
                   [Wake (tick_at (oclock 14)); Wake (tick_at (oclock 15))])
    by (repeat constructor).
  split; [exact Hmax|]. split; [exact R|]. split; [exact Hall|].
  destruct (zero_max_session_stalls exact
              (init zero_max_config (oclock 12) (oclock 12)) (oclock 12)
              [Wake (tick_at (oclock 14)); Wake (tick_at (oclock 15))]
              (oclock 16) true Hmax R Hall) as (_ & _ & C & _).
  exact C.
Defined.

(** ** More on the alert gate *)

(** Without a reset, the levels of the alerts of a disciplined trace go
    up. *)
Lemma gate_trace_fired_levels (events : list Event) :
  forall last : Z,
    gate_trace last events ->
    (forall s0, ~ In (AlertReset s0) events) ->
    StronglySorted Z.lt (fired_levels events)
    /\ Forall (fun L => last < L) (fired_levels events).
Proof.
  induction events as [|e events IH]; intros last Hg Hn;
    [split; constructor|].
  assert (Hn' : forall s0, ~ In (AlertReset s0) events)
    by (intros s0 H; apply (Hn s0); now right).
  destruct e as [L s | s0 | n | st | ln |]; cbn [gate_trace fired_levels] in *;
    try (now apply IH).
  - destruct Hg as [Hlt Hg]. destruct (IH L Hg Hn') as [S F].
    split; constructor; auto.
    eapply Forall_impl; [|exact F]. cbn. intros; lia.
  - exfalso. apply (Hn s0). now left.
Qed.

Lemma ascending_NoDup (l : list Z) : StronglySorted Z.lt l -> NoDup l.
Proof.
  induction 1 as [|a l _ IH F]; constructor; [|exact IH].
  intros Hin. rewrite Forall_forall in F. specialize (F a Hin). lia.
Qed.

Section Escalation.

Variable rnd : Q -> Q.

Lemma check_notifications_fired_in (d : Daemon) (s : Z) (tk : Tick) :
  Forall (fun L => In L (get (notification_levels (config d)) [30; 60; 90]))
         (fired_levels (snd (check_notifications rnd d s tk))).
Proof.
  pose proof (send_notification_quiet rnd d s (now_notify tk) (sink_ok tk)) as Hq.
  unfold check_notifications.
  destruct (crossed s (last_notification_level d) _) as [L|] eqn:E.
  - destruct (crossed_some _ _ _ _ E) as (Hin & _ & _). rewrite sorted_In in Hin.
    destruct (s <? 30); cbn [snd]; rewrite ?fired_levels_app;
      cbn [fired_levels]; rewrite (quiet_fired_levels _ Hq); cbn [app];
      repeat constructor; exact Hin.
  - destruct (s <? 30); cbn; constructor.
Qed.

Lemma run_fired_in (inputs : list Input) :
  forall l : Loop,
    Forall (fun L => In L (get (notification_levels (config (daemon l)))
                               [30; 60; 90]))
           (fired_levels (snd (run rnd l inputs))).
Proof.
  induction inputs as [|i rest IH]; intros l; cbn [run]; [constructor|].
  destruct (running (daemon l)); [|constructor].
  assert (H1 : Forall (fun L => In L (get (notification_levels (config (daemon l)))
                                          [30; 60; 90]))
                 (fired_levels (snd (step rnd l i)))).
  { destruct i as [t | tk]; cbn [step]; [constructor|].
    unfold monitor_iteration.
    destruct (calculate_fatigue_score rnd (daemon l) (now_score tk)) as [s|];
      [|constructor].
    pose proof (check_notifications_fired_in (set_fatigue_score (daemon l) s) s tk)
      as H.
    destruct (check_notifications rnd _ s tk) as [d2 alerts].
    pose proof (save_periodically_quiet rnd (type_keys d2 (typed tk))
                  (last_save_time l) tk) as Hq.
    destruct (save_periodically rnd _ (last_save_time l) tk) as [sa sv].
    cbn [fst snd] in *. rewrite fired_levels_app, (quiet_fired_levels _ Hq).
    now rewrite app_nil_r. }
  destruct (step_frame rnd l i) as [C _].
  destruct (step rnd l i) as [l1 e1]. cbn [fst snd] in *.
  specialize (IH l1). rewrite C in IH.
  destruct (run rnd l1 rest) as [l2 e2]. cbn [snd] in *.
  rewrite fired_levels_app. apply Forall_app. now split.
Qed.

(** X9.  Over a run in which no reset happens, the alerts fire for strictly
    increasing levels, each one a configured level above the alert level at
    the start; so there are at most as many alerts as configured levels. *)
Theorem alerts_escalate (l : Loop) (inputs : list Input) :
  (forall s0, ~ In (AlertReset s0) (snd (run rnd l inputs))) ->
  let levels := get (notification_levels (config (daemon l))) [30; 60; 90] in
  let fired := fired_levels (snd (run rnd l inputs)) in
  StronglySorted Z.lt fired
  /\ Forall (fun L => last_notification_level (daemon l) < L /\ In L levels) fired
  /\ (List.length fired <= List.length levels)%nat.
Proof.
  intros Hn levels fired.
  destruct (run_trace rnd inputs l) as [Hg _].
  destruct (gate_trace_fired_levels _ _ Hg Hn) as [S F].
  pose proof (run_fired_in inputs l) as Hin.
  split; [exact S|]. split.
  - rewrite Forall_forall in *. intros L HL. split; [now apply F | now apply Hin].
  - apply NoDup_incl_length; [now apply ascending_NoDup|].
    intros L HL. rewrite Forall_forall in Hin. now apply Hin.
Qed.

(** X10.  The alert level is always 0 or one of the configured levels: a
    run that starts from such a level ends at such a level. *)
Theorem alert_level_is_configured (l : Loop) (inputs : list Input) :
  (last_notification_level (daemon l) = 0
   \/ In (last_notification_level (daemon l))
         (get (notification_levels (config (daemon l))) [30; 60; 90])) ->
  last_notification_level (daemon (fst (run rnd l inputs))) = 0
  \/ In (last_notification_level (daemon (fst (run rnd l inputs))))
        (get (notification_levels (config (daemon l))) [30; 60; 90]).
Proof.
  intros H.
  pose (P := fun d0 : Daemon =>
               config d0 = config (daemon l)
               /\ (last_notification_level d0 = 0
                   \/ In (last_notification_level d0)
                         (get (notification_levels (config (daemon l)))
                              [30; 60; 90]))).
  destruct (run_invariant rnd P (fun _ => True)) with (inputs := inputs) (l := l)
    as [[_ G] _]; [| | | | split; [reflexivity | exact H] | exact G].
  - intros d0 t [C L]. split; [exact C | exact L].
  - intros d0 now s [C L] _. split; [exact C | exact L].
  - intros d0 s tk [C L]. unfold check_notifications. rewrite C.
    destruct (crossed s (last_notification_level d0) _) as [L'|] eqn:E.
    + destruct (crossed_some _ _ _ _ E) as (Hin & _ & _).
      rewrite sorted_In in Hin.
      destruct (s <? 30); cbn [fst]; split; auto.
    + destruct (s <? 30); cbn [fst]; split; auto.
  - intros d0 now ok _. apply Forall_forall. intros; exact I.
Qed.

End Escalation.

Lemma alerts_escalate_witness :
  (forall s0, ~ In (AlertReset s0) (snd (run exact night night_inputs)))
  /\ fired_levels (snd (run exact night night_inputs)) = [30; 60; 90]
  /\ StronglySorted Z.lt (fired_levels (snd (run exact night night_inputs))).
Proof.
  assert (Hn : forall s0, ~ In (AlertReset s0) (snd (run exact night night_inputs))).
  { intros s0 H. vm_compute in H.
    repeat (destruct H as [H | H]; [discriminate H|]). exact H. }
  split; [exact Hn|]. split; [vm_compute; reflexivity|].
  exact (proj1 (alerts_escalate exact night night_inputs Hn)).
Defined.

Lemma alert_level_is_configured_witness :
  (last_notification_level (daemon night) = 0
   \/ In (last_notification_level (daemon night))
         (get (notification_levels (config (daemon night))) [30; 60; 90]))
  /\ (last_notification_level (daemon (fst (run exact night night_inputs))) = 0
      \/ In (last_notification_level (daemon (fst (run exact night night_inputs))))
            (get (notification_levels (config (daemon night))) [30; 60; 90])).
Proof.
  assert (H : last_notification_level (daemon night) = 0
              \/ In (last_notification_level (daemon night))
                    (get (notification_levels (config (daemon night)))
                         [30; 60; 90])) by (left; reflexivity).
  split; [exact H|].
  exact (alert_level_is_configured exact night night_inputs H).
Defined.

(** ** A write that fails *)

Section FailedWrite.

Variable rnd : Q -> Q.

(** X11.  When a due write of the snapshot fails, the time of the last save
    is renewed all the same: an iteration that comes less than the interval
    after it does not call [save_stats], so the write is tried again only
    after a full interval, not at the next iteration. *)
Theorem failed_write_waits_an_interval (l : Loop) (tk tk' : Tick) :
  ~ (get (max_session_hours (config (daemon l))) (4 # 1) == 0)%Q ->
  store_ok tk = false ->
  apart rnd (get (save_interval_seconds (config (daemon l))) 60)
        (last_save_time l) (now_check tk) ->
  ~ apart rnd (get (save_interval_seconds (config (daemon l))) 60)
          (now_saved tk) (now_check tk') ->
  let r1 := monitor_iteration rnd l tk in
  let r2 := monitor_iteration rnd (fst r1) tk' in
  save_calls (snd r1) = [false]
  /\ snapshots (snd r1) = []
  /\ last_save_time (fst r1) = now_saved tk
  /\ save_calls (snd r2) = []
  /\ snapshots (snd r2) = [].
Proof.
  intros Hmax Hfail Hdue Hnot r1 r2.
  destruct (calculate_fatigue_score_returns rnd (daemon l) (now_score tk) Hmax)
    as [s E].
  destruct (monitor_iteration_save rnd l tk s E) as (S1 & N1 & L1).
  apply save_due_iff in Hdue. rewrite Hdue, Hfail in *. cbn [andb] in N1.
  destruct (monitor_iteration_frame rnd l tk) as [C _].
  fold r1 in S1, N1, L1, C.
  assert (Hmax' : ~ (get (max_session_hours (config (daemon (fst r1)))) (4 # 1)
                     == 0)%Q) by now rewrite C.
  destruct (calculate_fatigue_score_returns rnd (daemon (fst r1)) (now_score tk')
              Hmax') as [s' E'].
  destruct (monitor_iteration_save rnd (fst r1) tk' s' E') as (S2 & N2 & _).
  fold r2 in S2, N2. rewrite C, L1 in S2, N2.
  assert (D : save_due rnd (get (save_interval_seconds (config (daemon l))) 60)
                (now_saved tk) (now_check tk') = false).
  { destruct (save_due rnd _ (now_saved tk) (now_check tk')) eqn:D;
      [|reflexivity]. apply save_due_iff in D. contradiction. }
  rewrite D in S2, N2. cbn [andb] in N2.
  apply map_eq_nil in N1, N2. auto.
Qed.

End FailedWrite.

Lemma failed_write_waits_an_interval_witness :
  ~ (get (max_session_hours (config (daemon dawn))) (4 # 1) == 0)%Q
  /\ store_ok (set_store false (tick_at (oclock 5 + seconds 2700))) = false
  /\ apart exact (get (save_interval_seconds (config (daemon dawn))) 60)
        (last_save_time dawn)
        (now_check (set_store false (tick_at (oclock 5 + seconds 2700))))
  /\ ~ apart exact (get (save_interval_seconds (config (daemon dawn))) 60)
          (now_saved (set_store false (tick_at (oclock 5 + seconds 2700))))
          (now_check (tick_at (oclock 5 + seconds 2705)))
  /\ save_calls
       (snd (monitor_iteration exact
               (fst (monitor_iteration exact dawn
                       (set_store false (tick_at (oclock 5 + seconds 2700)))))
               (tick_at (oclock 5 + seconds 2705))))
     = [].
Proof.
  assert (Hmax : ~ (get (max_session_hours (config (daemon dawn))) (4 # 1) == 0)%Q)
    by discriminate.
  assert (Hfail : store_ok (set_store false (tick_at (oclock 5 + seconds 2700)))
                  = false) by reflexivity.
  assert (Hdue : apart exact (get (save_interval_seconds (config (daemon dawn))) 60)
                   (last_save_time dawn)
                   (now_check (set_store false (tick_at (oclock 5 + seconds 2700)))))
    by (vm_compute; discriminate).
  assert (Hnot : ~ apart exact
                     (get (save_interval_seconds (config (daemon dawn))) 60)
                     (now_saved (set_store false
                                   (tick_at (oclock 5 + seconds 2700))))
                     (now_check (tick_at (oclock 5 + seconds 2705))))
    by (vm_compute; intros H; apply H; reflexivity).
  split; [exact Hmax|]. split; [exact Hfail|]. split; [exact Hdue|].
  split; [exact Hnot|].
  destruct (failed_write_waits_an_interval exact dawn _ _ Hmax Hfail Hdue Hnot)
    as (_ & _ & _ & C & _).
  exact C.
Defined.

(** ** Missing fields and missing files *)

Ltac agree_fields H :=
  destruct H as ((Hbed & Hmax & Hlev & Hwin & Hint)
                 & Hstart & Hcount & Hlast & Hhist & Hscore & Hlevel & Hrun).

Lemma on_press_agree (d1 d2 : Daemon) (t : datetime) :
  agree d1 d2 -> agree (on_press d1 t) (on_press d2 t).
Proof.
  intros H. agree_fields H. unfold agree, same_settings.
  cbn [on_press config session_start keystroke_count last_keystroke_time
         keystroke_history fatigue_score last_notification_level running].
  repeat split; congruence.
Qed.

Lemma type_keys_agree (times : list datetime) :
  forall d1 d2, agree d1 d2 -> agree (type_keys d1 times) (type_keys d2 times).
Proof.
  unfold type_keys. induction times as [|t times IH]; intros d1 d2 H; [exact H|].
  cbn [fold_left]. apply IH. now apply on_press_agree.
Qed.

Section SameSettings.

Variable rnd : Q -> Q.

Lemma calculate_fatigue_score_agree (d1 d2 : Daemon) (now : datetime) :
  agree d1 d2 ->
  calculate_fatigue_score rnd d1 now = calculate_fatigue_score rnd d2 now.
Proof.
  intros H. agree_fields H. unfold calculate_fatigue_score, session_duration.
  now rewrite Hbed, Hmax, Hstart, Hhist.
Qed.

Lemma send_notification_agree (d1 d2 : Daemon) (s : Z) (now : datetime)
  (ok : bool) :
  agree d1 d2 ->
  send_notification rnd d1 s now ok = send_notification rnd d2 s now ok.
Proof.
  intros H. agree_fields H.
  unfold send_notification, select_notification, get_session_duration.
  now rewrite Hstart.
Qed.

Lemma check_notifications_agree (d1 d2 : Daemon) (s : Z) (tk : Tick) :
  agree d1 d2 ->
  agree (fst (check_notifications rnd d1 s tk))
        (fst (check_notifications rnd d2 s tk))
  /\ snd (check_notifications rnd d1 s tk) = snd (check_notifications rnd d2 s tk).
Proof.
  intros H. pose proof (send_notification_agree d1 d2 s (now_notify tk)
                          (sink_ok tk) H) as N.
  unfold check_notifications. rewrite N.
  agree_fields H. rewrite Hlev, Hlevel.
  destruct (crossed s (last_notification_level d2) _) as [L|];
    destruct (s <? 30); cbn [fst snd]; split; try reflexivity;
    unfold agree, same_settings;
    cbn [set_last_notification_level config session_start keystroke_count
           last_keystroke_time keystroke_history fatigue_score
           last_notification_level running];
    repeat split; congruence.
Qed.

Lemma save_stats_agree (d1 d2 : Daemon) (now : datetime) (ok : bool) :
  agree d1 d2 -> save_stats d1 now ok = save_stats d2 now ok.
Proof.
  intros H. agree_fields H. unfold save_stats, get_keystroke_rate.
  now rewrite Hstart, Hcount, Hhist, Hscore.
Qed.

Lemma monitor_iteration_agree (l1 l2 : Loop) (tk : Tick) :
  agree (daemon l1) (daemon l2) -> last_save_time l1 = last_save_time l2 ->
  agree (daemon (fst (monitor_iteration rnd l1 tk)))
        (daemon (fst (monitor_iteration rnd l2 tk)))
  /\ last_save_time (fst (monitor_iteration rnd l1 tk))
     = last_save_time (fst (monitor_iteration rnd l2 tk))
  /\ snd (monitor_iteration rnd l1 tk) = snd (monitor_iteration rnd l2 tk).
Proof.
  intros H T. unfold monitor_iteration.
  rewrite (calculate_fatigue_score_agree _ _ (now_score tk) H).
  destruct (calculate_fatigue_score rnd (daemon l2) (now_score tk)) as [s|];
    [|cbn [fst snd daemon];
      split; [now apply type_keys_agree | split; [exact T | reflexivity]]].
  assert (H1 : agree (set_fatigue_score (daemon l1) s)
                     (set_fatigue_score (daemon l2) s)).
  { agree_fields H. unfold agree, same_settings.
    cbn [set_fatigue_score config session_start keystroke_count
           last_keystroke_time keystroke_history fatigue_score
           last_notification_level running].
    repeat split; congruence. }
  destruct (check_notifications_agree _ _ s tk H1) as [H2 E2].
  destruct (check_notifications rnd (set_fatigue_score (daemon l1) s) s tk)
    as [d2 a2].
  destruct (check_notifications rnd (set_fatigue_score (daemon l2) s) s tk)
    as [d2' a2'].
  cbn [fst snd] in H2, E2. subst a2'.
  pose proof (type_keys_agree (typed tk) _ _ H2) as H3.
  unfold save_periodically.
  rewrite (save_stats_agree _ _ (now_stats tk) (store_ok tk) H3), T.
  replace (get (save_interval_seconds (config (type_keys d2 (typed tk)))) 60)
    with (get (save_interval_seconds (config (type_keys d2' (typed tk)))) 60)
    by (agree_fields H3; congruence).
  destruct (save_due rnd _ (last_save_time l2) (now_check tk));
    cbn [fst snd daemon last_save_time];
    (split; [exact H3 | split; reflexivity]).
Qed.

Lemma run_agree (inputs : list Input) :
  forall l1 l2 : Loop,
    agree (daemon l1) (daemon l2) -> last_save_time l1 = last_save_time l2 ->
    agree (daemon (fst (run rnd l1 inputs))) (daemon (fst (run rnd l2 inputs)))
    /\ snd (run rnd l1 inputs) = snd (run rnd l2 inputs).
Proof.
  induction inputs as [|i rest IH]; intros l1 l2 H T; cbn [run]; [now split|].
  assert (R : running (daemon l1) = running (daemon l2))
    by (agree_fields H; assumption).
  rewrite R. destruct (running (daemon l2)); [|now split].
  assert (E : agree (daemon (fst (step rnd l1 i))) (daemon (fst (step rnd l2 i)))
              /\ last_save_time (fst (step rnd l1 i))
                 = last_save_time (fst (step rnd l2 i))
              /\ snd (step rnd l1 i) = snd (step rnd l2 i)).
  { destruct i as [t | tk]; cbn [step].
    - cbn [fst snd daemon last_save_time].
      split; [now apply on_press_agree | split; [exact T | reflexivity]].
    - now apply monitor_iteration_agree. }
  destruct E as (E1 & E2 & E3).
  destruct (step rnd l1 i) as [l1' e1]. destruct (step rnd l2 i) as [l2' e2].
  cbn [fst snd] in E1, E2, E3. subst e2.
  destruct (IH l1' l2' E1 E2) as [F1 F2].
  destruct (run rnd l1' rest) as [l1'' e1'].
  destruct (run rnd l2' rest) as [l2'' e2']. cbn [fst snd] in *.
  split; [exact F1 | congruence].
Qed.

(** X12.  The daemon reads its configuration only through
    [get(key, default)]: two objects that differ at most in configurations
    that read alike produce the same events over any inputs, so a missing
    field is the same as its default.  In particular, whenever [load_config]
    finds no file or an unreadable one, whether or not the default file can
    be written, the configuration it returns reads as the default one; and
    after it has written the default file, loading again returns the default
    configuration and writes nothing. *)
Theorem missing_configuration_reads_as_default :
  (forall (d1 d2 : Daemon) (now0 : datetime) (inputs : list Input)
          (final_now : datetime) (final_store_ok : bool),
      agree d1 d2 ->
      snd (start rnd d1 now0 inputs final_now final_store_ok)
      = snd (start rnd d2 now0 inputs final_now final_store_ok))
  /\ (forall (file : ConfigFile) (write_ok : bool) (leftover : ConfigFile),
         (forall c, file <> Readable c) ->
         same_settings (fst (fst (load_config file write_ok leftover)))
                       default_config)
  /\ (forall leftover leftover' write_ok',
         load_config (snd (fst (load_config NoFile true leftover)))
                     write_ok' leftover'
         = (default_config, Readable default_config, [])).
Proof.
  split; [|split].
  - intros d1 d2 now0 inputs final_now final_store_ok H.
    unfold start, monitor_loop.
    destruct (run_agree inputs {| daemon := d1; last_save_time := now0 |}
                {| daemon := d2; last_save_time := now0 |} H eq_refl) as [A E].
    destruct (run rnd _ inputs) as [l1 e1].
    destruct (run rnd {| daemon := d2; last_save_time := now0 |} inputs)
      as [l2 e2].
    cbn [fst snd] in *. subst e2.
    assert (R : running (daemon l1) = running (daemon l2))
      by (agree_fields A; assumption).
    rewrite R. destruct (running (daemon l2)); [|reflexivity].
    cbn [snd]. f_equal. f_equal. f_equal.
    apply save_stats_agree. agree_fields A. unfold agree, same_settings.
    cbn [set_running config session_start keystroke_count last_keystroke_time
           keystroke_history fatigue_score last_notification_level running].
    repeat split; congruence.
  - intros file write_ok leftover Hfile.
    destruct file as [|c|]; [| exfalso; now apply (Hfile c) |];
      try destruct write_ok; cbn; now repeat split.
  - reflexivity.
Qed.

End SameSettings.

Lemma missing_configuration_reads_as_default_witness :
  agree (init empty_config (oclock 5 + seconds 1800) (oclock 5 + seconds 1800))
        (daemon dawn)
  /\ snd (start exact
            (init empty_config (oclock 5 + seconds 1800) (oclock 5 + seconds 1800))
            (last_save_time dawn) dawn_inputs (oclock 7) true)
     = snd (start exact (daemon dawn) (last_save_time dawn) dawn_inputs
                  (oclock 7) true).
Proof.
  assert (A : agree (init empty_config (oclock 5 + seconds 1800)
                          (oclock 5 + seconds 1800)) (daemon dawn))
    by (repeat split).
  split; [exact A|].
  exact (proj1 (missing_configuration_reads_as_default exact) _ _ _ _ _ _ A).
Defined.

(** * Properties of the dashboard *)

(** ** Floors *)

Lemma Qfloor_unique (x : Q) (z : Z) :
  (inject_Z z <= x)%Q -> (x < inject_Z z + 1)%Q -> Qfloor x = z.
Proof.
  intros L U. pose proof (Qfloor_le x) as FL. pose proof (Qlt_floor x) as FU.
  rewrite inject_Z_plus in FU. change (inject_Z 1) with 1%Q in FU.
  assert (A : (inject_Z (Qfloor x) < inject_Z (z + 1))%Q)
    by (rewrite inject_Z_plus; change (inject_Z 1) with 1%Q; lra).
  assert (B : (inject_Z z < inject_Z (Qfloor x + 1))%Q)
    by (rewrite inject_Z_plus; change (inject_Z 1) with 1%Q; lra).
  rewrite <- Zlt_Qlt in A, B. lia.
Qed.

Lemma trunc_inject_Z (z : Z) : trunc (inject_Z z) = z.
Proof. unfold trunc. cbn. apply Z.quot_1_r. Qed.

Lemma trunc_floor (q : Q) : (0 <= q)%Q -> trunc q = Qfloor q.
Proof.
  destruct q as [a b]. unfold Qle, trunc, Qfloor. cbn [Qnum Qden].
  intros H. apply Z.quot_div_nonneg; lia.
Qed.

(** The floor of a quotient by a positive number. *)
Lemma floor_div_bounds (q y : Q) :
  (0 < y)%Q ->
  (y * inject_Z (Qfloor (q / y)) <= q)%Q
  /\ (q < y * inject_Z (Qfloor (q / y)) + y)%Q.
Proof.
  intros Hy. pose proof (Qfloor_le (q / y)) as L.
  pose proof (Qlt_floor (q / y)) as U.
  rewrite inject_Z_plus in U. change (inject_Z 1) with 1%Q in U.
  assert (E : (q == y * (q / y))%Q) by (field; lra).
  split.
  - rewrite E at 2. now apply Qmult_le_l.
  - rewrite E at 1.
    setoid_replace (y * inject_Z (Qfloor (q / y)) + y)%Q
      with (y * (inject_Z (Qfloor (q / y)) + 1))%Q by ring.
    now apply Qmult_lt_l.
Qed.

Lemma floor_div_unique (q y : Q) (z : Z) :
  (0 < y)%Q -> (y * inject_Z z <= q)%Q -> (q < y * inject_Z z + y)%Q ->
  Qfloor (q / y) = z.
Proof.
  intros Hy L U. apply Qfloor_unique.
  - apply Qle_shift_div_l; [exact Hy|]. lra.
  - apply Qlt_shift_div_r; [exact Hy|]. lra.
Qed.

(** Hours, minutes and seconds of a nonnegative number of seconds, by the
    floors that the two formatting functions take. *)
Lemma hours_minutes_seconds (q : Q) :
  (0 <= q)%Q ->
  let h := Qfloor (q / 3600) in
  let m := Qfloor ((q - 3600 * inject_Z h) / 60) in
  let k := Qfloor (q / 60) in
  let s := Qfloor (q - 60 * inject_Z k) in
  0 <= h /\ 0 <= m < 60 /\ 0 <= s < 60
  /\ 60 * h + m = k /\ 3600 * h + 60 * m + s = Qfloor q.
Proof.
  intros Hq h m k s.
  destruct (floor_div_bounds q 3600 ltac:(reflexivity)) as [Lh Uh].
  fold h in Lh, Uh.
  destruct (floor_div_bounds (q - 3600 * inject_Z h) 60 ltac:(reflexivity))
    as [Lm Um]. fold m in Lm, Um.
  destruct (floor_div_bounds q 60 ltac:(reflexivity)) as [Lk Uk].
  fold k in Lk, Uk.
  pose proof (Qfloor_le (q - 60 * inject_Z k)) as Ls.
  pose proof (Qlt_floor (q - 60 * inject_Z k)) as Us. fold s in Ls, Us.
  rewrite inject_Z_plus in Us. change (inject_Z 1) with 1%Q in Us.
  assert (H0 : (inject_Z (-1) < inject_Z h)%Q)
    by (change (inject_Z (-1)) with (-1)%Q; lra).
  assert (M0 : (inject_Z (-1) < inject_Z m)%Q)
    by (change (inject_Z (-1)) with (-1)%Q; lra).
  assert (M1 : (inject_Z m < inject_Z 60)%Q)
    by (change (inject_Z 60) with 60%Q; lra).
  assert (S0 : (inject_Z (-1) < inject_Z s)%Q)
    by (change (inject_Z (-1)) with (-1)%Q; lra).
  assert (S1 : (inject_Z s < inject_Z 60)%Q)
    by (change (inject_Z 60) with 60%Q; lra).
  rewrite <- Zlt_Qlt in H0, M0, M1, S0, S1.
  assert (K : 60 * h + m = k).
  { symmetry. apply floor_div_unique; [reflexivity | |];
      rewrite inject_Z_plus, inject_Z_mult; change (inject_Z 60) with 60%Q; lra. }
  assert (Kq : (inject_Z k == 60 * inject_Z h + inject_Z m)%Q).
  { rewrite <- K, inject_Z_plus, inject_Z_mult. reflexivity. }
  repeat split; try lia.
  symmetry. apply Qfloor_unique;
    rewrite !inject_Z_plus, !inject_Z_mult;
    change (inject_Z 3600) with 3600%Q; change (inject_Z 60) with 60%Q; lra.
Qed.

(** Python's [%] on a nonnegative float and a positive divisor is the exact
    remainder: nothing is rounded. *)
Lemma fmod_nonneg (rnd : Q -> Q) (q y : Q) :
  (0 <= q)%Q -> (0 < y)%Q ->
  fmod rnd q y = (q - y * inject_Z (Qfloor (q / y)))%Q
  /\ (0 <= q - y * inject_Z (Qfloor (q / y)))%Q.
Proof.
  intros Hq Hy. destruct (floor_div_bounds q y Hy) as [L _].
  assert (Hd : (0 <= q / y)%Q) by (apply Qle_shift_div_l; [exact Hy | lra]).
  unfold fmod. rewrite (trunc_floor _ Hd).
  assert (M : (0 <= q - y * inject_Z (Qfloor (q / y)))%Q) by lra.
  split; [|exact M].
  assert (Y : Qltb y 0 = false) by (apply Qltb_false; lra).
  assert (N : Qltb (q - y * inject_Z (Qfloor (q / y))) 0 = false)
    by (apply Qltb_false; exact M).
  rewrite Y, N. cbn [xorb]. now rewrite andb_false_r.
Qed.

Lemma string_length_app (a b : string) :
  String.length (a ++ b) = (String.length a + String.length b)%nat.
Proof. induction a as [|c a IH]; cbn; [reflexivity | now rewrite IH]. Qed.

Lemma pad2_width (n : Z) : 0 <= n < 100 -> String.length (pad2 n) = 2%nat.
Proof.
  intros H.
  assert (A : forallb (fun k => (String.length (pad2 (Z.of_nat k)) =? 2)%nat)
                      (seq 0 100) = true) by (vm_compute; reflexivity).
  rewrite forallb_forall in A. specialize (A (Z.to_nat n)).
  rewrite Z2Nat.id in A by lia. apply Nat.eqb_eq, A, in_seq. lia.
Qed.

Section DashboardText.

Variable rnd : Q -> Q.

(** X13.  [format_duration] splits a number of seconds into hours, minutes
    below 60 and seconds below 60 that add up to it: to the int itself,
    negative or not, and to the floor of a nonnegative float below [2^53],
    the range in which the float [//] is exact; and below a hundred hours
    the text is exactly eight characters long. *)
Theorem format_duration_parts :
  (forall x : Z,
      let '(h, m, s) := duration_parts rnd (Int x) in
      0 <= m < 60 /\ 0 <= s < 60 /\ 3600 * h + 60 * m + s = x)
  /\ (forall q : Q,
         (0 <= q)%Q -> (q < 9007199254740992)%Q ->
         let '(h, m, s) := duration_parts rnd (Float q) in
         0 <= h /\ 0 <= m < 60 /\ 0 <= s < 60
         /\ 3600 * h + 60 * m + s = Qfloor q)
  /\ (forall seconds : number,
         (0 <= value seconds)%Q -> (value seconds < 360000)%Q ->
         String.length (format_duration rnd seconds) = 8%nat).
Proof.
  assert (HI : forall x : Z,
             let '(h, m, s) := duration_parts rnd (Int x) in
             0 <= m < 60 /\ 0 <= s < 60 /\ 3600 * h + 60 * m + s = x).
  { intros x. cbn [duration_parts floordiv_by mod_by int].
    pose proof (Z.mod_pos_bound x 3600 ltac:(lia)).
    pose proof (Z.mod_pos_bound x 60 ltac:(lia)).
    pose proof (Z.div_mod x 3600 ltac:(lia)).
    pose proof (Z.div_mod (x mod 3600) 60 ltac:(lia)).
    pose proof (Z.mod_pos_bound (x mod 3600) 60 ltac:(lia)).
    assert (E : (x mod 3600) mod 60 = x mod 60).
    { replace (x mod 3600) with (x + (- (x / 3600) * 60) * 60) by lia.
      apply Z_mod_plus_full. }
    assert (0 <= x mod 3600 / 60 < 60)
      by (split; [apply Z.div_pos; lia | apply Z.div_lt_upper_bound; lia]).
    repeat split; lia. }
  assert (HF : forall q : Q,
             (0 <= q)%Q -> (q < 9007199254740992)%Q ->
             let '(h, m, s) := duration_parts rnd (Float q) in
             0 <= h /\ 0 <= m < 60 /\ 0 <= s < 60
             /\ 3600 * h + 60 * m + s = Qfloor q).
  { intros q Hq _. cbn [duration_parts floordiv_by mod_by int].
    destruct (fmod_nonneg rnd q (inject_Z 3600) Hq ltac:(reflexivity)) as [-> M].
    destruct (fmod_nonneg rnd q (inject_Z 60) Hq ltac:(reflexivity)) as [-> S].
    unfold floordiv. rewrite !trunc_inject_Z, (trunc_floor _ S).
    destruct (hours_minutes_seconds q Hq) as (A & B & C & _ & E).
    change (inject_Z 3600) with 3600%Q. change (inject_Z 60) with 60%Q.
    repeat split; try lia; try exact E. }
  split; [exact HI|]. split; [exact HF|].
  intros seconds H0 H1. unfold format_duration.
  assert (P : let '(h, m, s) := duration_parts rnd seconds in
              0 <= h < 100 /\ 0 <= m < 60 /\ 0 <= s < 60).
  { destruct seconds as [x | q]; cbn [value] in H0, H1.
    - specialize (HI x). destruct (duration_parts rnd (Int x)) as [[h m] s].
      change 0%Q with (inject_Z 0) in H0.
      change 360000%Q with (inject_Z 360000) in H1.
      rewrite <- Zle_Qle in H0. rewrite <- Zlt_Qlt in H1. lia.
    - specialize (HF q H0 ltac:(lra)).
      destruct (duration_parts rnd (Float q)) as [[h m] s].
      assert (Qfloor q < 360000).
      { pose proof (Qfloor_le q). rewrite Zlt_Qlt.
        change (inject_Z 360000) with 360000%Q. lra. }
      lia. }
  destruct (duration_parts rnd seconds) as [[h m] s].
  destruct P as (Ph & Pm & Ps).
  rewrite !string_length_app, !pad2_width by lia. reflexivity.
Qed.

End DashboardText.

Lemma trunc_lower (q : Q) (n : Z) : (inject_Z n <= q)%Q -> 0 <= n -> n <= trunc q.
Proof.
  intros H Hn.
  assert (H0 : (0 <= q)%Q).
  { eapply Qle_trans; [|exact H]. change 0%Q with (inject_Z 0).
    now apply inject_Z_le. }
  rewrite (trunc_floor _ H0), <- (Qfloor_Z n). now apply Qfloor_resp_le.
Qed.

Lemma len_cells (c : Cell) (n : Z) : len (cells c n) = Z.max 0 n.
Proof. unfold len, cells. rewrite repeat_length. lia. Qed.

Section DashboardNumbers.

Variable rnd : Q -> Q.
Hypothesis rnd_monotone : forall x y : Q, (x <= y)%Q -> (rnd x <= rnd y)%Q.
Hypothesis rnd_small_int :
  forall z : Z, 0 <= z <= 100 -> (rnd (inject_Z z) == inject_Z z)%Q.

(** X14.  For an instant not before the start of the session, the text of
    [get_session_duration] is the hours, an h, the minutes and an m, where
    the minutes are below 60 and sixty times the hours plus the minutes is
    the whole number of minutes in the elapsed seconds. *)
Theorem session_duration_text_parts (d : Daemon) (now : datetime) :
  session_start d <= now ->
  let '(h, m) := session_parts rnd d now in
  get_session_duration rnd d now = (str h ++ "h " ++ str m ++ "m")%string
  /\ 0 <= h /\ 0 <= m < 60
  /\ 60 * h + m = Qfloor (total_seconds rnd (now - session_start d) / 60).
Proof.
  intros H. unfold session_parts, get_session_duration.
  set (ts := total_seconds rnd (now - session_start d)).
  assert (Hts : (0 <= ts)%Q).
  { subst ts. unfold total_seconds. change 0%Q with (inject_Z 0).
    apply (rnd_lower rnd rnd_monotone rnd_small_int); [lia|].
    apply Qle_shift_div_l; [reflexivity|]. change (inject_Z 0 * 1000000)%Q
      with (inject_Z 0). apply inject_Z_le. lia. }
  destruct (fmod_nonneg rnd ts 3600 Hts ltac:(reflexivity)) as [-> M].
  unfold floordiv. rewrite !trunc_inject_Z.
  destruct (hours_minutes_seconds ts Hts) as (A & B & _ & K & _).
  repeat split; lia.
Qed.

(** X15.  For a value between 0 and a positive maximum and a length up to
    100 the progress bar has exactly [length] cells, the filled ones first:
    none for the value 0, all of them for the maximum.  Whatever the
    arguments, a bar that is returned has [max(0, filled)] filled and
    [max(0, length - filled)] blank cells, where [filled] is
    [int((value / max_value) * length)]: it is never shorter than [length],
    it has exactly [length] cells when [filled] is between 0 and [length],
    and more when [filled] is below 0 or above a nonnegative [length]. *)
Theorem progress_bar_length (amount max_value : number) (length : Z) :
  (0 <= value amount)%Q -> (value amount <= value max_value)%Q ->
  (0 < value max_value)%Q -> 0 <= length <= 100 ->
  exists filled,
    draw_progress_bar rnd amount max_value length
    = Some (cells Filled filled ++ cells Blank (length - filled))
    /\ 0 <= filled <= length
    /\ len (cells Filled filled ++ cells Blank (length - filled)) = length
    /\ ((value amount == 0)%Q -> filled = 0)
    /\ ((value amount == value max_value)%Q -> filled = length)
    /\ (forall a m n bar,
           draw_progress_bar rnd a m n = Some bar ->
           let f := int (mul rnd (true_div rnd a m) (Int n)) in
           bar = cells Filled f ++ cells Blank (n - f)
           /\ len bar = Z.max 0 f + Z.max 0 (n - f)
           /\ n <= len bar
           /\ (0 <= f <= n -> len bar = n)
           /\ (0 <= n -> f < 0 \/ n < f -> n < len bar)).
Proof.
  intros H0 H1 Hm Hl. unfold draw_progress_bar.
  assert (Hne : Qeq_bool (value max_value) 0 = false).
  { destruct (Qeq_bool (value max_value) 0) eqn:E; [|reflexivity].
    apply Qeq_bool_eq in E. lra. }
  rewrite Hne. eexists. split; [reflexivity|].
  cbn [true_div mul value int].
  set (x := rnd (value amount / value max_value)).
  assert (X0 : (inject_Z 0 <= value amount / value max_value)%Q).
  { apply Qle_shift_div_l; [exact Hm|]. change (inject_Z 0) with 0%Q. lra. }
  assert (X1 : (value amount / value max_value <= inject_Z 1)%Q).
  { apply Qle_shift_div_r; [exact Hm|]. change (inject_Z 1) with 1%Q. lra. }
  apply (rnd_lower rnd rnd_monotone rnd_small_int _ 0 ltac:(lia)) in X0.
  apply (rnd_upper rnd rnd_monotone rnd_small_int _ 1 ltac:(lia)) in X1.
  fold x in X0, X1. change (inject_Z 0) with 0%Q in X0.
  change (inject_Z 1) with 1%Q in X1.
  assert (L0 : (0 <= inject_Z length)%Q)
    by (change 0%Q with (inject_Z 0); apply inject_Z_le; lia).
  assert (Y0 : (inject_Z 0 <= x * inject_Z length)%Q).
  { change (inject_Z 0) with 0%Q. now apply Qmult_le_0_compat. }
  assert (Y1 : (x * inject_Z length <= inject_Z length)%Q).
  { setoid_replace (inject_Z length) with (1 * inject_Z length)%Q at 2 by ring.
    now apply Qmult_le_compat_r. }
  pose proof (rnd_lower rnd rnd_monotone rnd_small_int _ 0 ltac:(lia) Y0) as Z0.
  pose proof (rnd_upper rnd rnd_monotone rnd_small_int _ length ltac:(lia) Y1)
    as Z1.
  pose proof (trunc_range _ length Z0 Z1) as T.
  split; [exact T|]. split; [rewrite len_app, !len_cells; lia|].
  split; [|split].
  - intros E0.
    assert (Xe : (x <= 0)%Q).
    { subst x. change 0%Q with (inject_Z 0).
      apply (rnd_upper rnd rnd_monotone rnd_small_int); [lia|].
      apply Qle_shift_div_r; [exact Hm|]. change (inject_Z 0) with 0%Q. lra. }
    assert (Ye : (x * inject_Z length <= inject_Z 0)%Q).
    { change (inject_Z 0) with 0%Q.
      setoid_replace 0%Q with (0 * inject_Z length)%Q by ring.
      now apply Qmult_le_compat_r. }
    apply (rnd_upper rnd rnd_monotone rnd_small_int _ 0 ltac:(lia)) in Ye.
    pose proof (trunc_range _ 0 Z0 Ye). lia.
  - intros E1.
    assert (Xe : (1 <= x)%Q).
    { subst x. change 1%Q with (inject_Z 1).
      apply (rnd_lower rnd rnd_monotone rnd_small_int); [lia|].
      apply Qle_shift_div_l; [exact Hm|]. change (inject_Z 1) with 1%Q. lra. }
    assert (Ye : (inject_Z length <= x * inject_Z length)%Q).
    { setoid_replace (inject_Z length) with (1 * inject_Z length)%Q at 1 by ring.
      now apply Qmult_le_compat_r. }
    apply (rnd_lower rnd rnd_monotone rnd_small_int _ length ltac:(lia)) in Ye.
    pose proof (trunc_lower _ length Ye ltac:(lia)). lia.
  - intros a m n bar. destruct (Qeq_bool (value m) 0); [discriminate|].
    intros [= <-]. cbv zeta. rewrite len_app, !len_cells.
    split; [reflexivity|]. repeat split; lia.
Qed.

End DashboardNumbers.

Lemma session_duration_text_parts_witness :
  session_start (init default_config (oclock 20) (oclock 20))
  <= oclock 23 + seconds 125
  /\ get_session_duration exact (init default_config (oclock 20) (oclock 20))
       (oclock 23 + seconds 125)
     = (str 3 ++ "h " ++ str 2 ++ "m")%string.
Proof.
  assert (H : session_start (init default_config (oclock 20) (oclock 20))
              <= oclock 23 + seconds 125) by (cbn; lia).
  split; [exact H|].
  exact (proj1 (session_duration_text_parts exact exact_monotone exact_small_int
                  (init default_config (oclock 20) (oclock 20))
                  (oclock 23 + seconds 125) H)).
Defined.

Lemma progress_bar_length_witness :
  (0 <= value (Int 45))%Q /\ (value (Int 45) <= value (Int 100))%Q
  /\ (0 < value (Int 100))%Q /\ 0 <= 30 <= 100
  /\ (exists filled,
         draw_progress_bar exact (Int 45) (Int 100) 30
         = Some (cells Filled filled ++ cells Blank (30 - filled))
         /\ 0 <= filled <= 30)
  /\ (forall bar, draw_progress_bar exact (Int (-1)) (Int 100) 30 = Some bar ->
                  len bar = 30)
  /\ (forall bar, draw_progress_bar exact (Int 101) (Int 100) 30 = Some bar ->
                  len bar = 30)
  /\ (forall bar, draw_progress_bar exact (Int 200) (Int 100) 30 = Some bar ->
                  len bar = 60).
Proof.
  assert (H0 : (0 <= value (Int 45))%Q) by discriminate.
  assert (H1 : (value (Int 45) <= value (Int 100))%Q) by discriminate.
  assert (Hm : (0 < value (Int 100))%Q) by reflexivity.
  assert (Hl : 0 <= 30 <= 100) by lia.
  split; [exact H0|]. split; [exact H1|]. split; [exact Hm|]. split; [exact Hl|].
  destruct (progress_bar_length exact exact_monotone exact_small_int
              (Int 45) (Int 100) 30 H0 H1 Hm Hl)
    as (filled & E & B & _ & _ & _ & A).
  split; [exists filled; split; [exact E | exact B]|].
  split; [|split]; intros bar Hbar;
    destruct (A _ _ _ _ Hbar) as (_ & -> & _); reflexivity.
Defined.

(** ** The tiers of the dashboard and of the daemon *)

(** X16.  The dashboard and the daemon cut the score at the same tiers of
    30, 60 and 90: the mode text is NORMAL exactly when [send_notification]
    would send nothing, CAUTION with the warning, WARNING with the
    high-fatigue notice and CRITICAL with the critical alert; two scores
    with the same mode text have the same colour, and without colorama the
    colour is the empty string.  The late warning of the dashboard is the
    late-night band of the daemon for the default bedtime of 23. *)
Theorem dashboard_tiers_match_notifications (rnd : Q -> Q) (p : Palette)
  (d : Daemon) (now : datetime) (s : Z) :
  (get_mode_text s = "NORMAL ✓"%string
   <-> select_notification rnd d s now = None)
  /\ (get_mode_text s = "CAUTION 💡"%string
      <-> select_notification rnd d s now
          = Some (fatigue_warning (get_session_duration rnd d now)))
  /\ (get_mode_text s = "WARNING ⚡"%string
      <-> select_notification rnd d s now = Some high_fatigue)
  /\ (get_mode_text s = "CRITICAL ⚠️"%string
      <-> select_notification rnd d s now = Some critical_alert)
  /\ (forall s', get_mode_text s = get_mode_text s' ->
                 get_fatigue_color p s = get_fatigue_color p s')
  /\ get_fatigue_color no_colors s = ""%string
  /\ (forall h, late_warning h = late_night 23 h).
Proof.
  unfold get_mode_text, select_notification, get_fatigue_color.
  destruct (90 <=? s); [|destruct (60 <=? s); [|destruct (30 <=? s)]];
    (repeat split; try reflexivity; try discriminate;
     [intros s'; destruct (90 <=? s');
      [|destruct (60 <=? s'); [|destruct (30 <=? s')]];
      (reflexivity || discriminate)]).
Qed.

(** X17.  The activity line of the dashboard against the rate factor of the
    daemon, for the rate the snapshot reports: the line reads Active only
    when the factor is at most 10, Slow only when it is between 10 and 30,
    and Idle only when it is 25 or 30. *)
Theorem activity_line_and_rate_factor (d : Daemon) :
  let rate := get_keystroke_rate d in
  let factor := keystroke_rate_score (keystroke_history d) in
  (rate_status rate = "Active 🔥"%string <-> 60 < rate)
  /\ (rate_status rate = "Idle 😴"%string <-> rate <= 20)
  /\ (rate_status rate = "Active 🔥"%string -> factor <= 10)
  /\ (rate_status rate = "Slow 🐌"%string -> 10 <= factor <= 30)
  /\ (rate_status rate = "Idle 😴"%string -> factor = 25 \/ factor = 30).
Proof.
  intros rate factor. subst rate factor. rewrite get_keystroke_rate_len.
  unfold rate_status, keystroke_rate_score.
  pose proof (len_nonneg (keystroke_history d)).
  repeat match goal with
         | |- context [?a <? ?b] => destruct (Z.ltb_spec a b); try lia
         end;
    repeat split; intros; try discriminate; try lia; auto.
Qed.

(** One hour, two minutes and five and a half seconds. *)
Lemma format_duration_parts_witness :
  (0 <= 7451 # 2)%Q /\ (7451 # 2 < 360000)%Q
  /\ format_duration exact (Float (7451 # 2)) = "01:02:05"%string
  /\ String.length (format_duration exact (Float (7451 # 2))) = 8%nat.
Proof.
  assert (H0 : (0 <= value (Float (7451 # 2)))%Q) by discriminate.
  assert (H1 : (value (Float (7451 # 2)) < 360000)%Q) by reflexivity.
  split; [exact H0|]. split; [exact H1|]. split; [vm_compute; reflexivity|].
  exact (proj2 (proj2 (format_duration_parts exact)) (Float (7451 # 2)) H0 H1).
Defined.
